(** * Axom helper scripts: configuration resolver and fleet drivers

    A shallow embedding of [scripts/config-build.py],
    [scripts/llnl_scripts/build_src.py] and the uberenv install drivers,
    with the properties of their path/naming policy, directory reset and
    command composition.

    Python [str] values are [string]; the process environment and the
    file system are finite maps keyed by strings; the scripts' statements
    run in a small state-and-exception monad over the world they mutate. *)

From Stdlib Require Import ZArith Ascii String List Bool Lia.
From stdpp Require Import base option gmap strings list fin_maps.

Local Open Scope string_scope.

(** ** Python [str] methods used by the scripts *)

Module PyStr.

Definition dquote : string := String "034"%char EmptyString.

(** [s.startswith(p)] *)
Definition startswith (s p : string) : bool := String.prefix p s.

(** [s.endswith(suf)] *)
Definition endswith (s suf : string) : bool :=
  (String.length suf <=? String.length s)%nat
  && String.eqb (String.substring (String.length s - String.length suf)
                                  (String.length suf) s) suf.

(** [s[:-n]] for [n > 0] *)
Definition drop_last (n : nat) (s : string) : string :=
  String.substring 0 (String.length s - n) s.

(** [s.lower()] on ASCII letters *)
Definition lower_char (c : ascii) : ascii :=
  let n := nat_of_ascii c in
  if (65 <=? n)%nat && (n <=? 90)%nat then ascii_of_nat (n + 32) else c.

Fixpoint lower (s : string) : string :=
  match s with
  | EmptyString => EmptyString
  | String c s' => String (lower_char c) (lower s')
  end.

(** [s.split(sep)] for a one-character separator: never the empty list *)
Fixpoint split (sep : ascii) (s : string) : list string :=
  match s with
  | EmptyString => [EmptyString]
  | String c s' =>
      if Ascii.eqb c sep then EmptyString :: split sep s'
      else match split sep s' with
           | h :: t => String c h :: t
           | [] => [String c EmptyString]
           end
  end.

(** [sep.join(l)] *)
Fixpoint join (sep : string) (l : list string) : string :=
  match l with
  | [] => EmptyString
  | [x] => x
  | x :: l' => x +:+ sep +:+ join sep l'
  end.

(** [s.replace(old, new)] for a non-empty [old]: a left-to-right scan
    replacing each occurrence found, resuming after the replaced text.
    [skip] counts the characters of a matched occurrence still to be
    passed over. *)
Fixpoint replace_from (old new : string) (skip : nat) (s : string) : string :=
  match s with
  | EmptyString => EmptyString
  | String c s' =>
      match skip with
      | S k => replace_from old new k s'
      | O =>
          if String.prefix old s
          then new +:+ replace_from old new (String.length old - 1) s'
          else String c (replace_from old new 0 s')
      end
  end.

Definition replace (s old new : string) : string :=
  match old with
  | EmptyString =>
      (* the empty pattern matches between any two characters *)
      (fix go (s : string) : string :=
         match s with
         | EmptyString => new
         | String c s' => new +:+ String c (go s')
         end) s
  | _ => replace_from old new 0 s
  end.

(** [s.rstrip(c)] *)
Fixpoint rstrip (c : ascii) (s : string) : string :=
  match s with
  | EmptyString => EmptyString
  | String a s' =>
      let r := rstrip c s' in
      if String.eqb r EmptyString && Ascii.eqb a c then EmptyString
      else String a r
  end.

(** [s.rfind(c) + 1]: [0] when [c] does not occur *)
Fixpoint rfind1 (c : ascii) (s : string) : nat :=
  match s with
  | EmptyString => 0
  | String a s' =>
      match rfind1 c s' with
      | S i => S (S i)
      | O => if Ascii.eqb a c then 1 else 0
      end
  end.

(** [s == c * len(s)] *)
Fixpoint all_char (c : ascii) (s : string) : bool :=
  match s with
  | EmptyString => true
  | String a s' => Ascii.eqb a c && all_char c s'
  end.

(** [c in s] *)
Fixpoint has_char (c : ascii) (s : string) : bool :=
  match s with
  | EmptyString => false
  | String a s' => Ascii.eqb a c || has_char c s'
  end.

(** the start indices of the occurrences of [pat] in [s] *)
Fixpoint occurrences_from (pat : string) (i : nat) (s : string) : list nat :=
  (if String.prefix pat s then [i] else [])
    ++ match s with
       | EmptyString => []
       | String _ s' => occurrences_from pat (S i) s'
       end.

Definition occurrences (pat s : string) : list nat := occurrences_from pat 0 s.

End PyStr.

(** ** [os.path] on a POSIX host *)

Module PosixPath.
Import PyStr.

Definition sep : ascii := "/"%char.

(** [os.path.isabs] *)
Definition isabs (p : string) : bool := startswith p "/".

(** one round of the loop of [os.path.join] *)
Definition join2 (path b : string) : string :=
  if startswith b "/" then b
  else if String.eqb path EmptyString || endswith path "/" then path +:+ b
  else path +:+ "/" +:+ b.

(** [os.path.join(a, *p)] *)
Definition join (a : string) (p : list string) : string := fold_left join2 p a.

(** [os.path.split] *)
Definition split (p : string) : string * string :=
  let i := rfind1 sep p in
  let head := String.substring 0 i p in
  let tail := String.substring i (String.length p - i) p in
  let head :=
    if negb (String.eqb head EmptyString) && negb (all_char sep head)
    then rstrip sep head else head in
  (head, tail).

(** [os.path.dirname] *)
Definition dirname (p : string) : string := fst (split p).

(** [os.path.basename] *)
Definition basename (p : string) : string := snd (split p).

(** one round of the component loop of [os.path.normpath] *)
Definition norm_step (initial_slashes : nat) (new_comps : list string)
    (comp : string) : list string :=
  if String.eqb comp EmptyString || String.eqb comp "." then new_comps
  else if negb (String.eqb comp "..")
          || ((initial_slashes =? 0)%nat && bool_decide (new_comps = []))
          || (negb (bool_decide (new_comps = []))
              && String.eqb (List.last new_comps EmptyString) "..")
  then new_comps ++ [comp]
  else if negb (bool_decide (new_comps = [])) then List.removelast new_comps
  else new_comps.

(** [os.path.normpath] *)
Definition normpath (path : string) : string :=
  if String.eqb path EmptyString then "."
  else
    let initial_slashes :=
      if startswith path "/" then
        if startswith path "//" && negb (startswith path "///") then 2 else 1
      else 0 in
    let comps := PyStr.split sep path in
    let new_comps := fold_left (norm_step initial_slashes) comps [] in
    let path := PyStr.join "/" new_comps in
    let path :=
      match initial_slashes with
      | 0 => path
      | 1 => "/" +:+ path
      | _ => "//" +:+ path
      end in
    if String.eqb path EmptyString then "." else path.

(** [os.path.abspath], with the result of [os.getcwd()] passed in *)
Definition abspath (cwd path : string) : string :=
  normpath (if isabs path then path else join cwd [path]).

(** *** Vocabulary of the statements *)

(** [dir] is empty or ends in a slash *)
Definition dir_prefix (dir : string) : Prop :=
  dir = "" \/ exists q, dir = q +:+ "/".

(** a name that [normpath] keeps as it is: no slash, and none of [""],
    ["."], [".."] *)
Definition simple_name (name : string) : Prop :=
  has_char sep name = false /\ name <> "" /\ name <> "." /\ name <> "..".

End PosixPath.


(** ** scripts/config-build.py *)

Module ConfigBuild.
Import PyStr PosixPath.

(** *** Command-line arguments ([parser.parse_args()]) *)

Inductive BuildType := Release | Debug | RelWithDebInfo | MinSizeRel.

Definition buildtype_str (b : BuildType) : string :=
  match b with
  | Release => "Release"
  | Debug => "Debug"
  | RelWithDebInfo => "RelWithDebInfo"
  | MinSizeRel => "MinSizeRel"
  end.

Module args.
Record t := {
  buildpath : string;                (* -bp, default "" *)
  installpath : string;              (* -ip, default "" *)
  compiler : string;                 (* -c, default "gnu" *)
  buildtype : BuildType;             (* -bt, one of the choices *)
  eclipse : bool;                    (* -e, store_true *)
  xcode : bool;                      (* -x, store_true *)
  exportcompilercommands : bool;     (* -ecc, store_true *)
  cmakeoption : option string;       (* -co, default None *)
  hostconfig : string                (* -hc, default "" *)
}.

Definition defaults : t :=
  {| buildpath := ""; installpath := ""; compiler := "gnu";
     buildtype := Debug; eclipse := false; xcode := false;
     exportcompilercommands := false; cmakeoption := None;
     hostconfig := "" |}.
End args.

(** *** The process and the world it runs in *)

Inductive Kind := File | Dir.

#[global] Instance Kind_eq_dec : EqDecision Kind.
Proof. solve_decision. Defined.

Inductive Errno := ENOENT | EEXIST | ENOTDIR.

Inductive Exn :=
| AssertionError (msg : string)
| NameError (name : string)
| OSError (e : Errno) (path : string).

Inductive Event :=
| Stdout (line : string)
| Rmtree (path : string)
| Makedirs (path : string)
| Chdir (path : string)
| Call (cmdline : string) (dir : string) (status : Z).

(** What the script reads and never changes: [sys.argv[0]],
    [os.environ], [platform.node()] and the shell that
    [subprocess.call(..., shell=True)] hands the command line to. *)
Record Proc := {
  argv0 : string;
  environ : gmap string string;
  environ_repr : string;
  node : string;
  shell : string -> string -> gmap string Kind -> Z * gmap string Kind
}.

(** What the script changes: the directory tree (keyed by normalised
    absolute path; symbolic links are left out), the working directory
    and, as a record of what was done, the list of effects in the order
    they happened. *)
Record World := {
  fs : gmap string Kind;
  cwd : string;
  log : list Event
}.

Definition emit (e : Event) (w : World) : World :=
  {| fs := fs w; cwd := cwd w; log := log w ++ [e] |}.

Inductive Result (A : Type) :=
| Ok (a : A)
| Raise (e : Exn).
Arguments Ok {A} a.
Arguments Raise {A} e.

Definition M (A : Type) : Type := World -> Result A * World.

Definition ret {A} (a : A) : M A := fun w => (Ok a, w).

Definition raise {A} (e : Exn) : M A := fun w => (Raise e, w).

Definition bind {A B} (m : M A) (k : A -> M B) : M B :=
  fun w =>
    match m w with
    | (Ok a, w') => k a w'
    | (Raise e, w') => (Raise e, w')
    end.

Declare Scope py_scope.
Delimit Scope py_scope with py.
Notation "'let*' x ':=' m 'in' k" := (bind m (fun x => k))
  (at level 10, x name, m at level 100, k at level 200) : py_scope.
Notation "'let*' ' p ':=' m 'in' k" := (bind m (fun x => match x with p => k end))
  (at level 10, p pattern, m at level 100, k at level 200) : py_scope.
Notation "m ';;' k" := (bind m (fun _ => k))
  (at level 100, k at level 200, right associativity) : py_scope.
Local Open Scope py_scope.

(** A process that ends normally exits with 0; an uncaught exception
    makes the interpreter exit with 1. *)
Definition exit_status {A} (r : Result A) : Z :=
  match r with
  | Ok _ => 0
  | Raise _ => 1
  end.

(** *** The library calls the script makes *)

Definition print (line : string) : M unit :=
  fun w => (Ok tt, emit (Stdout line) w).

Definition py_assert (b : bool) (msg : string) : M unit :=
  if b then ret tt else raise (AssertionError msg).

(** [os.path.abspath].  The working directory of the world is a name:
    [os.getcwd()] is taken to answer with it throughout, also after a
    reset has deleted the directory of that name (where the running
    process would be left in a directory that is gone, and a later
    [abspath] of a relative path would raise). *)
Definition os_path_abspath (path : string) : M string :=
  fun w => (Ok (abspath (cwd w) path), w).

(** the entry of the tree at the place the text of [path] normalises to *)
Definition lookup_path (w : World) (path : string) : option Kind :=
  fs w !! abspath (cwd w) path.

(** a component that names an entry: none of [""], ["."], [".."] *)
Definition is_name (c : string) : bool :=
  negb (String.eqb c "" || String.eqb c "." || String.eqb c "..").

(** The places a path walks through and leaves again: each prefix of
    the path that ends in a name and is followed by an empty component,
    by ["."] or by [".."].  [normpath] drops these components by the
    text alone; a look at the disk walks through them, so each of these
    prefixes has to be a directory.  [taken] holds the components
    already passed. *)
Fixpoint dirs_needed (taken comps : list string) : list string :=
  match comps with
  | [] => []
  | c :: rest =>
      (match rest with
       | n :: _ =>
           if is_name c && negb (is_name n)
           then [PyStr.join "/" (taken ++ [c])%list] else []
       | [] => []
       end ++ dirs_needed (taken ++ [c]) rest)%list
  end.

(** what [os.path.exists] answers for [path] as it is written: there is
    an entry where the path leads, and every directory the path walks
    through on the way ([x] in [x/../f], [x/./f], [x//f] or [x/]) is a
    directory.  The directories above the entry itself are not looked
    at: in a tree where every entry has its parent directories they are
    there with the entry. *)
Definition path_exists (w : World) (path : string) : bool :=
  bool_decide (is_Some (lookup_path w path))
  && forallb (fun d => bool_decide (lookup_path w d = Some Dir))
       (dirs_needed [] (PyStr.split sep path)).

Definition os_path_exists (path : string) : M bool :=
  fun w => (Ok (path_exists w path), w).

(** [k] is [r] or lies below it. *)
Definition under (r k : string) : bool :=
  String.eqb k r || startswith k (if endswith r "/" then r else r +:+ "/").

(** [shutil.rmtree], [os.makedirs] and [os.chdir] go to the place the
    text of their path normalises to; the script hands them paths that
    [os.path.abspath] returned, which are normalised already. *)
Definition shutil_rmtree (path : string) : M unit :=
  fun w =>
    let r := abspath (cwd w) path in
    match fs w !! r with
    | Some Dir =>
        (Ok tt,
         emit (Rmtree r)
           {| fs := filter (fun kv => under r kv.1 = false) (fs w);
              cwd := cwd w; log := log w |})
    | Some File => (Raise (OSError ENOTDIR r), w)
    | None => (Raise (OSError ENOENT r), w)
    end.

(** The directories above [s] and [s] itself, outermost first; [pre]
    is the part of the path already passed. *)
Fixpoint ancestors_from (pre s : string) : list string :=
  match s with
  | EmptyString => [pre]
  | String c s' =>
      (if Ascii.eqb c sep && negb (String.eqb pre EmptyString) then [pre] else [])
        ++ ancestors_from (pre +:+ String c EmptyString) s'
  end.

Definition ancestors (r : string) : list string := ancestors_from EmptyString r.

Definition mkdir_missing (m : gmap string Kind) (d : string) : gmap string Kind :=
  match m !! d with
  | Some _ => m
  | None => <[d := Dir]> m
  end.

(** the entry of the list of ancestors [l] that follows [d] *)
Fixpoint next_on_path (d : string) (l : list string) (last : string) : string :=
  match l with
  | x :: l' =>
      match l' with
      | y :: _ => if String.eqb x d then y else next_on_path d l' last
      | [] => last
      end
  | [] => last
  end.

(** [os.makedirs]: with a regular file [d] on the way, the [mkdir] that
    fails is the one of the first directory to make below [d], and the
    error names that directory. *)
Definition os_makedirs (path : string) : M unit :=
  fun w =>
    let r := abspath (cwd w) path in
    match fs w !! r with
    | Some _ => (Raise (OSError EEXIST r), w)
    | None =>
        match List.find (fun d => bool_decide (fs w !! d = Some File)) (ancestors r) with
        | Some d => (Raise (OSError ENOTDIR (next_on_path d (ancestors r) r)), w)
        | None =>
            (Ok tt,
             emit (Makedirs r)
               {| fs := fold_left mkdir_missing (ancestors r) (fs w);
                  cwd := cwd w; log := log w |})
        end
    end.

Definition os_chdir (path : string) : M unit :=
  fun w =>
    let r := abspath (cwd w) path in
    match fs w !! r with
    | Some Dir => (Ok tt, emit (Chdir r) {| fs := fs w; cwd := r; log := log w |})
    | Some File => (Raise (OSError ENOTDIR r), w)
    | None => (Raise (OSError ENOENT r), w)
    end.

Definition subprocess_call (p : Proc) (cmdline : string) : M Z :=
  fun w =>
    let '(status, fs') := shell p cmdline (cwd w) (fs w) in
    (Ok status, emit (Call cmdline (cwd w) status) {| fs := fs'; cwd := cwd w; log := log w |}).

(** *** The script, statement by statement *)

(** Find CMake Cache File (lines 73-93) *)
Definition find_cmake_cache_file (a : args.t) (p : Proc) (scriptsdir : string)
    : M (string * string) :=
  if negb (String.eqb (args.hostconfig a) "") then
    let* cachefile := os_path_abspath (args.hostconfig a) in
    let platform_info := snd (split cachefile) in
    let platform_info :=
      if endswith platform_info ".cmake" then drop_last 6 platform_info
      else platform_info in
    print ("Using user specified host config file: '" +:+ cachefile +:+ "'.") ;;
    ret (cachefile, platform_info)
  else
    let cachefile := replace scriptsdir "scripts" "host-configs" in
    match environ p !! "SYS_TYPE" with
    | Some systype =>
        let platform_info := List.hd "" (PyStr.split "_" systype) in
        let cachefile := join cachefile [platform_info; args.compiler a +:+ ".cmake"] in
        print ("Detected LC SYS_TYPE '" +:+ systype +:+ "'.  Using host config file: '"
               +:+ cachefile +:+ "'.") ;;
        ret (cachefile, platform_info)
    | None =>
        let platform_info := node p in
        let cachefile := join cachefile ["other"; platform_info +:+ ".cmake"] in
        print ("No SYS_TYPE in environment, using hostname config file: '"
               +:+ cachefile +:+ "'") ;;
        ret (cachefile, platform_info)
    end.

(** Setup Build Dir: the path (lines 106-116) *)
Definition compute_buildpath (a : args.t) (platform_info : string) : M string :=
  let* buildpath :=
    if negb (String.eqb (args.buildpath a) "") then
      ret (args.buildpath a)
    else if negb (String.eqb (args.hostconfig a) "") then
      ret (PyStr.join "-" ["build"; platform_info; lower (buildtype_str (args.buildtype a))])
    else if String.eqb (args.buildpath a) "" then
      ret (PyStr.join "-" ["build"; platform_info; args.compiler a;
                           lower (buildtype_str (args.buildtype a))])
    else raise (NameError "buildpath") in
  os_path_abspath buildpath.

(** Setup Build Dir: delete and create (lines 118-123) *)
Definition reset_buildpath (buildpath : string) : M unit :=
  let* present := os_path_exists buildpath in
  (if present then
     print ("Build directory '" +:+ buildpath +:+ "' already exists.  Deleting...") ;;
     shutil_rmtree buildpath
   else ret tt) ;;
  print ("Creating build directory '" +:+ buildpath +:+ "'...") ;;
  os_makedirs buildpath.

Definition setup_build_dir (a : args.t) (platform_info : string) : M string :=
  let* buildpath := compute_buildpath a platform_info in
  reset_buildpath buildpath ;;
  ret buildpath.

(** Setup Install Dir: the path (lines 129-138) *)
Definition compute_installpath (a : args.t) (platform_info : string) : M string :=
  let* installpath :=
    if negb (String.eqb (args.installpath a) "") then
      os_path_abspath (args.installpath a)
    else if negb (String.eqb (args.hostconfig a) "") then
      ret (PyStr.join "-" ["install"; platform_info; lower (buildtype_str (args.buildtype a))])
    else
      ret (PyStr.join "-" ["install"; platform_info; args.compiler a;
                           lower (buildtype_str (args.buildtype a))]) in
  os_path_abspath installpath.

(** Setup Install Dir: delete and create (lines 140-146) *)
Definition reset_installpath (installpath : string) : M unit :=
  let* present := os_path_exists installpath in
  (if present then
     print ("Install directory '" +:+ installpath +:+ "' already exists, deleting...") ;;
     shutil_rmtree installpath
   else ret tt) ;;
  print ("Creating install path '" +:+ installpath +:+ "'...") ;;
  os_makedirs installpath.

Definition setup_install_dir (a : args.t) (platform_info : string) : M string :=
  let* installpath := compute_installpath a platform_info in
  reset_installpath installpath ;;
  ret installpath.

(** the truth value of [args.cmakeoption] *)
Definition truthy (o : option string) : bool :=
  match o with
  | Some s => negb (String.eqb s "")
  | None => false
  end.

(** Build CMake command line (lines 152-172) *)
Definition build_cmake_line (a : args.t) (cachefile installpath scriptsdir : string)
    : string :=
  let cmakeline := "cmake" in
  let cmakeline := cmakeline +:+ (" -C " +:+ cachefile) in
  let cmakeline := cmakeline +:+ (" -DCMAKE_BUILD_TYPE=" +:+ buildtype_str (args.buildtype a)) in
  let cmakeline := cmakeline +:+ (" -DCMAKE_INSTALL_PREFIX=" +:+ installpath) in
  let cmakeline :=
    if args.exportcompilercommands a
    then cmakeline +:+ " -DCMAKE_EXPORT_COMPILE_COMMANDS=on" else cmakeline in
  let cmakeline :=
    if args.eclipse a
    then cmakeline +:+ (" -G " +:+ dquote +:+ "Eclipse CDT4 - Unix Makefiles" +:+ dquote)
    else cmakeline in
  let cmakeline :=
    if args.xcode a
    then cmakeline +:+ (" -G " +:+ dquote +:+ "XCode" +:+ dquote) else cmakeline in
  let cmakeline :=
    if truthy (args.cmakeoption a)
    then cmakeline +:+ (" -D" +:+ default "" (args.cmakeoption a)) else cmakeline in
  cmakeline +:+ (" " +:+ scriptsdir +:+ "/../src ").

(** Run CMake (lines 177-181): the value of [subprocess.call] is not
    bound to anything. *)
Definition run_cmake (p : Proc) (buildpath cmakeline : string) : M unit :=
  print "Changing to build directory..." ;;
  os_chdir buildpath ;;
  print ("Executing cmake line: '" +:+ cmakeline +:+ "'") ;;
  print "" ;;
  let* _ := subprocess_call p cmakeline in
  ret tt.

(** Everything before the Run CMake block: the resolved build directory
    and the composed command line. *)
Definition configure (a : args.t) (p : Proc) : M (string * string) :=
  let* script := os_path_abspath (argv0 p) in
  let scriptsdir := dirname script in
  let* '(cachefile, platform_info) := find_cmake_cache_file a p scriptsdir in
  print "Environment:" ;;
  print "------------" ;;
  print (environ_repr p) ;;
  print "------------" ;;
  let* found := os_path_exists cachefile in
  py_assert found ("Could not find cmake cache file '" +:+ cachefile +:+ "'.") ;;
  let* buildpath := setup_build_dir a platform_info in
  let* installpath := setup_install_dir a platform_info in
  ret (buildpath, build_cmake_line a cachefile installpath scriptsdir).

(** The whole script. *)
Definition config_build (a : args.t) (p : Proc) : M unit :=
  let* '(buildpath, cmakeline) := configure a p in
  run_cmake p buildpath cmakeline.

(** The status the script's process exits with. *)
Definition script_exit_status (a : args.t) (p : Proc) (w : World) : Z :=
  exit_status (fst (config_build a p w)).

(** *** The command line as the words appended to [cmake] *)



Definition is_print (e : Event) : bool :=
  match e with Stdout _ => true | _ => false end.

(** *** Vocabulary of the statements *)

(** [h] is what stands in [s] before the first [c] ([s] itself when
    [c] does not occur). *)
Definition before_first (c : ascii) (s h : string) : Prop :=
  has_char c h = false /\ (s = h \/ exists rest, s = h +:+ String c rest).

(** [stem] is [name] with a trailing [ext] taken off, if it has one. *)
Definition without_ext (ext name stem : string) : Prop :=
  name = stem +:+ ext \/ ((forall x, name <> x +:+ ext) /\ stem = name).

(** the directory name of the naming policy, for the prefix ["build"]
    or ["install"] *)
Definition policy_name (prefix : string) (a : args.t) (platform_info : string)
    : string :=
  if String.eqb (args.hostconfig a) "" then
    prefix +:+ "-" +:+ platform_info +:+ "-" +:+ args.compiler a
      +:+ "-" +:+ lower (buildtype_str (args.buildtype a))
  else
    prefix +:+ "-" +:+ platform_info
      +:+ "-" +:+ lower (buildtype_str (args.buildtype a)).

(** the same arguments with another [--compiler] *)
Definition with_compiler (c : string) (a : args.t) : args.t :=
  {| args.buildpath := args.buildpath a; args.installpath := args.installpath a;
     args.compiler := c; args.buildtype := args.buildtype a;
     args.eclipse := args.eclipse a; args.xcode := args.xcode a;
     args.exportcompilercommands := args.exportcompilercommands a;
     args.cmakeoption := args.cmakeoption a; args.hostconfig := args.hostconfig a |}.

(** the components the locator joins to the configs root when no
    host-config is given: PlatformInfo and <compiler>.cmake on an LC
    machine, ["other"] and <hostname>.cmake elsewhere *)
Definition cache_file_components (a : args.t) (p : Proc) : list string :=
  match environ p !! "SYS_TYPE" with
  | Some systype => [List.hd "" (PyStr.split "_" systype); args.compiler a +:+ ".cmake"]
  | None => ["other"; node p +:+ ".cmake"]
  end.

(** a path component that [os.path.join] sets between two slashes as
    it stands *)
Definition plain (component : string) : Prop :=
  component <> "" /\ startswith component "/" = false
  /\ endswith component "/" = false.

End ConfigBuild.

(** ** scripts/llnl_scripts/build_src.py *)

Module BuildSrc.
Import PyStr PosixPath.

(** [opts], the dict made from the parsed options *)
Record Opts := {
  directory : string;     (* -d, default "" *)
  archive : string        (* -a, default "" *)
}.

(** The names the script takes from [llnl_lc_uberenv_install_tools],
    which is not among the sources: they are parameters of [main]. *)
Record Tools := {
  get_username : string;
  get_timestamp : string;
  build_and_test_host_configs : string -> string -> string -> Z
}.

(** The host the script runs on. *)
Record Host := {
  environ : gmap string string;
  isdir : string -> bool;          (* os.path.isdir *)
  getcwd : string;                 (* os.getcwd() *)
  file__ : string;                 (* __file__ *)
  realpath_file : string           (* os.path.realpath(__file__) *)
}.

Inductive Event :=
| Stdout (line : string)
| BuildAndTest (src_dir job_name timestamp : string)
| ArchiveSrcLogs (src_dir job_name timestamp : string).

(** [main()]: the value returned and what was done, in order.  Each
    assignment to [src_dir] is a new binding of the name, so the one
    that reaches [build_and_test_host_configs] is the last one made. *)
Definition main (t : Tools) (h : Host) (opts : Opts) : Z * list Event :=
  let from_env :=
    match environ h !! "UBERENV_PREFIX" with
    | Some src_dir =>
        if negb (isdir h src_dir) then
          inl [Stdout "[ERROR: Given environment variable 'UBERENV_PREFIX' is not a valid directory]";
               Stdout ("[    'UBERENV_PREFIX' = " +:+ src_dir +:+ "]")]
        else inr (Some src_dir)
    | None => inr None
    end in
  match from_env with
  | inl out => (1%Z, out)
  | inr _ =>
      let chosen :=
        if negb (String.eqb (directory opts) "") then
          let src_dir := directory opts in
          if negb (isdir h src_dir) then
            inl [Stdout "[ERROR: Given command line variable '--directory' is not a valid directory]";
                 Stdout ("[    '--directory' = " +:+ src_dir +:+ "]")]
          else inr src_dir
        else
          let script_dir := dirname (realpath_file h) in
          inr (abspath (getcwd h) (join script_dir ["../.."])) in
      match chosen with
      | inl out => (1%Z, out)
      | inr src_dir =>
          let job_name :=
            if negb (String.eqb (archive opts) "") then archive opts
            else get_username t +:+ "/" +:+ basename (file__ h) in
          let timestamp := get_timestamp t in
          let res := build_and_test_host_configs t src_dir job_name timestamp in
          (res,
           ([BuildAndTest src_dir job_name timestamp]
              ++ (if negb (String.eqb (archive opts) "")
                  then [ArchiveSrcLogs src_dir job_name timestamp] else []))%list)
      end
  end.

(** the source directory handed to [build_and_test_host_configs] *)
Definition built_src_dir (t : Tools) (h : Host) (opts : Opts) : option string :=
  match List.filter (fun e => match e with BuildAndTest _ _ _ => true | _ => false end)
          (snd (main t h opts)) with
  | BuildAndTest src_dir _ _ :: _ => Some src_dir
  | _ => None
  end.

End BuildSrc.

(** ** scripts/uberenv/llnl_install_scripts and scripts/llnl_scripts:
       the fleet TPL-install drivers *)

Module UberenvInstall.

Section Driver.
(** The external dependency installer: run for an output directory
    and a compiler spec in some state of the machine, it leaves an
    exit status and a new state. *)
Variable S : Type.
Variable installer : string -> string -> S -> Z * S.

(** what a run has done so far: the state of the machine, the specs
    the installer was started for and the result kept for each *)
Record Run := {
  machine : S;
  attempts : list string;
  results : list (string * bool)
}.

Definition start (s : S) : Run :=
  {| machine := s; attempts := []; results := [] |}.

Definition build_one (builds_dir : string) (r : Run) (spec : string) : Run :=
  let '(status, s') := installer builds_dir spec (machine r) in
  {| machine := s';
     attempts := attempts r ++ [spec];
     results := results r ++ [(spec, (status =? 0)%Z)] |}.

(** Modelled from the spec: [full_build_and_test_of_tpls] of
    [llnl_lc_uberenv_install_tools], a module of this repository that
    is not among the sources.  For each spec of the list, in order,
    the installer is invoked once with that spec and a pass/fail
    result is kept; a failing spec does not stop the run and is not
    tried again; the value returned is non-zero if any spec failed. *)
Definition full_build_and_test_of_tpls (builds_dir : string)
    (specs : list string) (s : S) : Z * Run :=
  let r := fold_left (build_one builds_dir) specs (start s) in
  ((if forallb snd (results r) then 0 else 1)%Z, r).

(** llnl_cz_uberenv_install_toss_3_x86_64_ib_all_compilers.py *)
Definition main_cz_toss_3 : S -> Z * Run :=
  let builds_dir := "/usr/workspace/wsa/axom/thirdparty_libs/builds/" in
  let specs := ["%clang@3.9.0"; "%gcc@4.9.3"; "%intel@16.0.4"; "%intel@17.0.0"] in
  full_build_and_test_of_tpls builds_dir specs.

(** uberenv/llnl_install_scripts/llnl_rz_uberenv_install_chaos_5_x86_64_ib_all_compilers.py *)
Definition main_rz_chaos_5 : S -> Z * Run :=
  let builds_dir := "/usr/workspace/wsrzc/axom/thirdparty_libs/builds/" in
  let specs := ["%clang@3.5.0"; "%gcc@4.7.1"; "%gcc@4.9.3";
                "%intel@15.0.187"; "%intel@16.0.109"] in
  full_build_and_test_of_tpls builds_dir specs.

(** llnl_scripts/llnl_rz_uberenv_install_chaos_5_x86_64_ib_all_compilers.py *)
Definition main_rz_chaos_5_llnl_scripts : S -> Z * Run :=
  let builds_dir := "/usr/workspace/wsrzc/axom/thirdparty_libs/builds/" in
  let specs := ["%clang@3.9.1"; "%clang@4.0.1"; "%gcc@4.9.3";
                "%intel@15.0.223"; "%intel@16.0.258"; "%intel@17.0.174"] in
  full_build_and_test_of_tpls builds_dir specs.
End Driver.

Arguments machine {S} _.
Arguments attempts {S} _.
Arguments results {S} _.

End UberenvInstall.

(** ** Sample runs *)

Module Sample.
Import ConfigBuild.

(** a checkout in /work/axom, with a cache file for the host foo and one
    for the gnu compiler on toss machines *)
Definition tree : gmap string Kind :=
  list_to_map
    [("/", Dir); ("/work", Dir); ("/work/axom", Dir);
     ("/work/axom/scripts", Dir); ("/work/axom/host-configs", Dir);
     ("/work/axom/host-configs/other", Dir);
     ("/work/axom/host-configs/other/foo.cmake", File);
     ("/work/axom/host-configs/toss", Dir);
     ("/work/axom/host-configs/toss/gnu.cmake", File)].

(** a build tool that writes nothing and fails with status 2 *)
Definition cmake_fails (cmdline dir : string) (m : gmap string Kind)
    : Z * gmap string Kind := (2%Z, m).

(** the host foo, without SYS_TYPE *)
Definition foo : Proc :=
  {| argv0 := "scripts/config-build.py"; environ := ∅; environ_repr := "{}";
     node := "foo"; shell := cmake_fails |}.

(** an LC machine *)
Definition toss : Proc :=
  {| argv0 := "scripts/config-build.py";
     environ := {[ "SYS_TYPE" := "toss_3_x86_64_ib" ]};
     environ_repr := "{'SYS_TYPE': 'toss_3_x86_64_ib'}";
     node := "quartz7"; shell := cmake_fails |}.

(** a machine whose SYS_TYPE starts with an underscore *)
Definition underscore : Proc :=
  {| argv0 := "scripts/config-build.py";
     environ := {[ "SYS_TYPE" := "_x86_64" ]};
     environ_repr := "{'SYS_TYPE': '_x86_64'}";
     node := "quartz7"; shell := cmake_fails |}.

(** a machine whose host name cannot be determined *)
Definition nameless : Proc :=
  {| argv0 := "scripts/config-build.py"; environ := ∅; environ_repr := "{}";
     node := ""; shell := cmake_fails |}.

Definition start : World := {| fs := tree; cwd := "/work/axom"; log := [] |}.

(** [--buildtype Release --compiler gnu] *)
Definition release_gnu : args.t :=
  {| args.buildpath := ""; args.installpath := ""; args.compiler := "gnu";
     args.buildtype := Release; args.eclipse := false; args.xcode := false;
     args.exportcompilercommands := false; args.cmakeoption := None;
     args.hostconfig := "" |}.



(** [--hostconfig] with the given path *)
Definition with_hostconfig (path : string) : args.t :=
  {| args.buildpath := ""; args.installpath := ""; args.compiler := "gnu";
     args.buildtype := Debug; args.eclipse := false; args.xcode := false;
     args.exportcompilercommands := false; args.cmakeoption := None;
     args.hostconfig := path |}.

(** the same checkout after an earlier configuration: the build
    directory is there, with a cache in it *)
Definition built : World :=
  {| fs := <[ "/work/axom/build-foo-gnu-debug/CMakeCache.txt" := File ]>
             (<[ "/work/axom/build-foo-gnu-debug" := Dir ]> tree);
     cwd := "/work/axom"; log := [] |}.


(** [--buildpath out/build --installpath out] *)
Definition nested : args.t :=
  {| args.buildpath := "out/build"; args.installpath := "out";
     args.compiler := "gnu"; args.buildtype := Debug; args.eclipse := false;
     args.xcode := false; args.exportcompilercommands := false;
     args.cmakeoption := None; args.hostconfig := "" |}.

(** the checkout with a regular file where the build directory of a
    host-config run would go *)
Definition blocked : World :=
  {| fs := <[ "/work/axom/build-foo-debug" := File ]> tree;
     cwd := "/work/axom"; log := [] |}.

(** build_src.py started in a checkout in /work/axom, with
    UBERENV_PREFIX naming another source tree *)
Definition lc_host : BuildSrc.Host :=
  {| BuildSrc.environ := {[ "UBERENV_PREFIX" := "/usr/workspace/axom/src" ]};
     BuildSrc.isdir := fun d =>
       String.eqb d "/usr/workspace/axom/src" || String.eqb d "/work/axom";
     BuildSrc.getcwd := "/work/axom";
     BuildSrc.file__ := "scripts/llnl_scripts/build_src.py";
     BuildSrc.realpath_file := "/work/axom/scripts/llnl_scripts/build_src.py" |}.

Definition no_options : BuildSrc.Opts :=
  {| BuildSrc.directory := ""; BuildSrc.archive := "" |}.

(** build_src.py started in /work, where src/axom is a directory and
    UBERENV_PREFIX is not set *)
Definition work_host : BuildSrc.Host :=
  {| BuildSrc.environ := ∅;
     BuildSrc.isdir := fun d => String.eqb d "src/axom";
     BuildSrc.getcwd := "/work";
     BuildSrc.file__ := "axom/scripts/llnl_scripts/build_src.py";
     BuildSrc.realpath_file := "/work/axom/scripts/llnl_scripts/build_src.py" |}.

(** [--directory src/axom --archive nightly] *)
Definition archive_relative : BuildSrc.Opts :=
  {| BuildSrc.directory := "src/axom"; BuildSrc.archive := "nightly" |}.

(** tools whose build of the host-configs succeeds *)
Definition tools : BuildSrc.Tools :=
  {| BuildSrc.get_username := "axom";
     BuildSrc.get_timestamp := "2018_01_01_00_00_00";
     BuildSrc.build_and_test_host_configs := fun _ _ _ => 0%Z |}.

(** an installer that fails for gcc 4.9.3 and counts its invocations *)
Definition gcc_fails (builds_dir spec : string) (n : nat) : Z * nat :=
  ((if String.eqb spec "%gcc@4.9.3" then 1 else 0)%Z, S n).

End Sample.

(** ** Vocabulary for normalised paths *)

Module PathVocabulary.
Import PyStr PosixPath.

(** the count [os.path.normpath] keeps of the leading slashes: none,
    one, or two (exactly two leading slashes are kept as they are) *)
Definition initial_slashes (path : string) : nat :=
  if startswith path "/" then
    if startswith path "//" && negb (startswith path "///") then 2 else 1
  else 0.

Definition slashes (k : nat) : string :=
  match k with
  | 0 => ""
  | 1 => "/"
  | _ => "//"
  end.

(** the components, each followed by a slash *)
Fixpoint dirs (l : list string) : string :=
  match l with
  | [] => ""
  | x :: l' => x +:+ "/" +:+ dirs l'
  end.

End PathVocabulary.

(** ** Vocabulary for the runs of config-build.py *)

Module RunVocabulary.
Import PyStr PosixPath ConfigBuild.

Definition is_call (e : Event) : bool :=
  match e with Call _ _ _ => true | _ => false end.

(** a computation that starts no process: what it appends to the log,
    whether it returns or raises, holds no [Call] *)
Definition quiet {A : Type} (m : M A) : Prop :=
  forall w, exists evs,
    log (snd (m w)) = (log w ++ evs)%list /\ List.filter is_call evs = [].

(** the path [k] lies strictly below the directory [r] *)
Definition below (r k : string) : Prop := startswith k (r +:+ "/") = true.

(** every entry of the tree has its parent directories in the tree *)
Definition well_formed (m : gmap string Kind) : Prop :=
  forall k d, is_Some (m !! k) -> In d (ancestors k) -> m !! d = Some Dir \/ d = k.

End RunVocabulary.

(** * Properties *)

(** ** The string and path functions on sample values *)

Module PathTests.
Import PyStr PosixPath.

Example replace_twice :
  replace "/home/scripts/axom/scripts" "scripts" "host-configs"
  = "/home/host-configs/axom/host-configs".
Proof. reflexivity. Qed.

Example replace_overlap :
  replace "/x/scriptscripts" "scripts" "host-configs" = "/x/host-configscripts".
Proof. reflexivity. Qed.

Example replace_empty_pattern : replace "ab" "" "x" = "xaxbx".
Proof. reflexivity. Qed.

Example split_systype : PyStr.split "_" "toss_3_x86_64_ib" = ["toss"; "3"; "x86"; "64"; "ib"].
Proof. reflexivity. Qed.

Example join_abs : join "/r/host-configs" ["toss"; "/opt/intel.cmake"] = "/opt/intel.cmake".
Proof. reflexivity. Qed.

Example join_empty : join "/r" [""; "gnu.cmake"] = "/r/gnu.cmake".
Proof. reflexivity. Qed.

Example split_root : split "/usr" = ("/", "usr").
Proof. reflexivity. Qed.

Example split_trailing : split "/usr/lib/" = ("/usr/lib", "").
Proof. reflexivity. Qed.

Example normpath_dots : normpath "/a/./b/../../c//d/" = "/c/d".
Proof. reflexivity. Qed.

Example normpath_up : normpath "../a/../../b" = "../../b".
Proof. reflexivity. Qed.

Example abspath_rel : abspath "/work/axom" "scripts/../x.cmake" = "/work/axom/x.cmake".
Proof. reflexivity. Qed.

Example lower_release : lower "RelWithDebInfo" = "relwithdebinfo".
Proof. reflexivity. Qed.

Example endswith_cmake : endswith "gnu.cmake" ".cmake" = true /\ drop_last 6 "gnu.cmake" = "gnu".
Proof. split; reflexivity. Qed.

Example occurrences_two : occurrences "scripts" "/scripts/a/scripts" = [1; 11].
Proof. reflexivity. Qed.
End PathTests.

(** ** Facts about the string methods *)

Module PyStrFacts.
Import PyStr.
#[local] Arguments String.append !_ _ / : simpl nomatch.

Lemma append_nil_r (s : string) : s +:+ "" = s.
Proof. induction s as [|c s IH]; simpl; [reflexivity | now rewrite IH]. Qed.

Lemma append_assoc (a b c : string) : (a +:+ b) +:+ c = a +:+ (b +:+ c).
Proof. induction a as [|x a IH]; simpl; [reflexivity | now rewrite IH]. Qed.

Lemma length_append (a b : string) :
  String.length (a +:+ b) = String.length a + String.length b.
Proof. induction a as [|x a IH]; simpl; [reflexivity | now rewrite IH]. Qed.

Lemma length_zero (s : string) : String.length s = 0 -> s = "".
Proof. destruct s; simpl; [reflexivity | discriminate]. Qed.

Lemma substring_0_0 (s : string) : String.substring 0 0 s = "".
Proof. destruct s; reflexivity. Qed.

Lemma substring_0_length (s : string) : String.substring 0 (String.length s) s = s.
Proof. induction s as [|c s IH]; simpl; [reflexivity | now rewrite IH]. Qed.

Lemma length_substring_0 (n : nat) (s : string) :
  n <= String.length s -> String.length (String.substring 0 n s) = n.
Proof.
  revert n; induction s as [|c s IH]; intros [|n] H; simpl in *; try lia.
  rewrite IH; lia.
Qed.

Lemma substring_split (k : nat) (s : string) :
  k <= String.length s ->
  s = String.substring 0 k s +:+ String.substring k (String.length s - k) s.
Proof.
  revert k; induction s as [|c s IH]; intros [|k] H; simpl in *; try lia.
  - reflexivity.
  - now rewrite substring_0_length.
  - f_equal. apply IH. lia.
Qed.

Lemma substring_0_append (a b : string) :
  String.substring 0 (String.length a) (a +:+ b) = a.
Proof.
  induction a as [|x a IH]; simpl; [apply substring_0_0 | now rewrite IH].
Qed.

Lemma substring_skip_append (a b : string) :
  String.substring (String.length a) (String.length b) (a +:+ b) = b.
Proof. induction a as [|x a IH]; simpl; [apply substring_0_length | exact IH]. Qed.

Lemma prefix_nil (s : string) : String.prefix "" s = true.
Proof. destruct s; reflexivity. Qed.

Lemma prefix_cons (a b : ascii) (s t : string) :
  String.prefix (String a s) (String b t)
  = if ascii_dec a b then String.prefix s t else false.
Proof. reflexivity. Qed.

Lemma prefix_append (a b : string) : String.prefix a (a +:+ b) = true.
Proof.
  induction a as [|x a IH]; simpl; [now destruct b |].
  destruct (ascii_dec x x); [exact IH | congruence].
Qed.

Lemma prefix_split (a s : string) :
  String.prefix a s = true -> exists b, s = a +:+ b.
Proof.
  revert s; induction a as [|x a IH]; intros s H.
  - now exists s.
  - destruct s as [|y s]; simpl in H; [discriminate |].
    destruct (ascii_dec x y) as [->|]; [| discriminate].
    destruct (IH _ H) as [b ->]. now exists b.
Qed.

(** [endswith] and the slice [[:-n]] against concatenation *)
Lemma endswith_append (stem suf : string) : endswith (stem +:+ suf) suf = true.
Proof.
  unfold endswith. rewrite length_append.
  replace (String.length stem + String.length suf - String.length suf)
    with (String.length stem) by lia.
  rewrite substring_skip_append, String.eqb_refl, andb_true_r.
  apply Nat.leb_le. lia.
Qed.

Lemma endswith_split (s suf : string) :
  endswith s suf = true -> exists stem, s = stem +:+ suf.
Proof.
  unfold endswith. intros H. apply andb_true_iff in H as [Hl He].
  apply Nat.leb_le in Hl. apply String.eqb_eq in He.
  exists (String.substring 0 (String.length s - String.length suf) s).
  rewrite (substring_split (String.length s - String.length suf) s) at 1 by lia.
  f_equal. rewrite <- He at 3. f_equal. lia.
Qed.

Lemma drop_last_append (stem suf : string) :
  drop_last (String.length suf) (stem +:+ suf) = stem.
Proof.
  unfold drop_last. rewrite length_append.
  replace (String.length stem + String.length suf - String.length suf)
    with (String.length stem) by lia.
  apply substring_0_append.
Qed.

Lemma append_inv_tail (a b suf : string) : a +:+ suf = b +:+ suf -> a = b.
Proof.
  intros H.
  rewrite <- (substring_0_append a suf), <- (substring_0_append b suf).
  assert (String.length a = String.length b) as ->.
  { apply (f_equal String.length) in H. rewrite !length_append in H. lia. }
  now rewrite H.
Qed.

(** [s.split(sep)[0]] is what stands before the first [sep] *)
Lemma split_hd (c : ascii) (s : string) :
  let h := List.hd "" (split c s) in
  has_char c h = false
  /\ (s = h \/ exists rest, s = h +:+ String c rest).
Proof.
  induction s as [|x s IH]; simpl.
  - split; [reflexivity | now left].
  - destruct (Ascii.eqb_spec x c) as [->|Hne].
    + simpl. split; [reflexivity | right; now exists s].
    + destruct IH as [Hh Hs].
      destruct (split c s) as [|h t] eqn:E; simpl in *.
      * destruct Hs as [-> | [rest ->]]; simpl.
        -- rewrite (proj2 (Ascii.eqb_neq x c) Hne). split; [reflexivity | now left].
        -- rewrite (proj2 (Ascii.eqb_neq x c) Hne).
           split; [reflexivity | right; now exists rest].
      * rewrite (proj2 (Ascii.eqb_neq x c) Hne), Hh.
        split; [reflexivity |].
        destruct Hs as [-> | [rest ->]]; [now left | right; now exists rest].
Qed.

Lemma split_hd_empty (c : ascii) (s : string) :
  List.hd "" (split c s) = "" <-> s = "" \/ exists rest, s = String c rest.
Proof.
  destruct s as [|x s]; simpl.
  - split; [now left | reflexivity].
  - destruct (Ascii.eqb_spec x c) as [->|Hne]; simpl.
    + split; [right; now exists s | reflexivity].
    + split.
      * destruct (split c s); discriminate.
      * intros [H | [rest H]]; [discriminate | congruence].
Qed.

End PyStrFacts.

(** ** config-build.py: the cache-file locator *)

Module LocatorFacts.
Import PyStr PosixPath PyStrFacts ConfigBuild.
#[local] Arguments String.append !_ _ / : simpl nomatch.
Local Open Scope py_scope.

Lemma locator_hostconfig (a : args.t) (p : Proc) (scriptsdir : string) (w : World) :
  args.hostconfig a <> "" ->
  find_cmake_cache_file a p scriptsdir w =
    (Ok (abspath (cwd w) (args.hostconfig a),
         if endswith (basename (abspath (cwd w) (args.hostconfig a))) ".cmake"
         then drop_last 6 (basename (abspath (cwd w) (args.hostconfig a)))
         else basename (abspath (cwd w) (args.hostconfig a))),
     emit (Stdout ("Using user specified host config file: '"
                  +:+ abspath (cwd w) (args.hostconfig a) +:+ "'.")) w).
Proof.
  intros H. unfold find_cmake_cache_file.
  destruct (String.eqb_spec (args.hostconfig a) ""); [contradiction |].
  reflexivity.
Qed.

Lemma locator_systype (a : args.t) (p : Proc) (scriptsdir : string) (w : World)
    (systype : string) :
  args.hostconfig a = "" ->
  environ p !! "SYS_TYPE" = Some systype ->
  find_cmake_cache_file a p scriptsdir w =
    (Ok (join (replace scriptsdir "scripts" "host-configs")
           [List.hd "" (PyStr.split "_" systype); args.compiler a +:+ ".cmake"],
         List.hd "" (PyStr.split "_" systype)),
     emit (Stdout ("Detected LC SYS_TYPE '" +:+ systype
                  +:+ "'.  Using host config file: '"
                  +:+ join (replace scriptsdir "scripts" "host-configs")
                        [List.hd "" (PyStr.split "_" systype);
                         args.compiler a +:+ ".cmake"]
                  +:+ "'.")) w).
Proof.
  intros H E. unfold find_cmake_cache_file. rewrite H, E. reflexivity.
Qed.

Lemma locator_hostname (a : args.t) (p : Proc) (scriptsdir : string) (w : World) :
  args.hostconfig a = "" ->
  environ p !! "SYS_TYPE" = None ->
  find_cmake_cache_file a p scriptsdir w =
    (Ok (join (replace scriptsdir "scripts" "host-configs")
           ["other"; node p +:+ ".cmake"], node p),
     emit (Stdout ("No SYS_TYPE in environment, using hostname config file: '"
                  +:+ join (replace scriptsdir "scripts" "host-configs")
                        ["other"; node p +:+ ".cmake"]
                  +:+ "'")) w).
Proof.
  intros H E. unfold find_cmake_cache_file. rewrite H, E. reflexivity.
Qed.

(** taking [".cmake"] off a base name *)
Lemma drop_last_cmake (stem : string) : drop_last 6 (stem +:+ ".cmake") = stem.
Proof. exact (drop_last_append stem ".cmake"). Qed.

Lemma strip_cmake (name : string) :
  without_ext ".cmake" name
    (if endswith name ".cmake" then drop_last 6 name else name).
Proof.
  destruct (endswith name ".cmake") eqn:E.
  - left. destruct (endswith_split _ _ E) as [stem ->].
    now rewrite drop_last_cmake.
  - right. split; [| reflexivity].
    intros x ->. now rewrite endswith_append in E.
Qed.

Lemma strip_cmake_empty (name : string) :
  (if endswith name ".cmake" then drop_last 6 name else name) = ""
  <-> name = "" \/ name = ".cmake".
Proof.
  destruct (endswith name ".cmake") eqn:E.
  - destruct (endswith_split _ _ E) as [stem ->].
    rewrite drop_last_cmake. split.
    + intros ->. now right.
    + intros [H | H].
      * destruct stem; discriminate.
      * now apply (append_inv_tail stem "" ".cmake").
  - split; [now left |].
    intros [-> | ->]; [reflexivity | discriminate].
Qed.

(** where [os.path.join] is plain concatenation *)
Lemma substring_past (a b : string) (k m : nat) :
  String.substring (String.length a + k) m (a +:+ b) = String.substring k m b.
Proof. induction a as [|x a IH]; simpl; [reflexivity | exact IH]. Qed.

Lemma endswith_slash_append (a b : string) :
  b <> "" -> endswith (a +:+ b) "/" = endswith b "/".
Proof.
  intros Hb. unfold endswith. rewrite length_append. simpl String.length.
  assert (1 <= String.length b) by (destruct b; simpl; [congruence | lia]).
  replace (String.length a + String.length b - 1)
    with (String.length a + (String.length b - 1)) by lia.
  rewrite substring_past.
  replace (1 <=? String.length a + String.length b)%nat with true
    by (symmetry; apply Nat.leb_le; lia).
  replace (1 <=? String.length b)%nat with true
    by (symmetry; apply Nat.leb_le; lia).
  reflexivity.
Qed.

Lemma append_nonempty_l (a b : string) : a <> "" -> a +:+ b <> "".
Proof. destruct a; simpl; [congruence | discriminate]. Qed.

Lemma join2_plain (path b : string) :
  path <> "" -> endswith path "/" = false -> startswith b "/" = false ->
  join2 path b = path +:+ "/" +:+ b.
Proof.
  intros Hp He Hb. unfold join2. rewrite Hb, He.
  destruct (String.eqb_spec path ""); [contradiction | reflexivity].
Qed.

Lemma join_plain (root dir file : string) :
  root <> "" -> endswith root "/" = false -> plain dir ->
  startswith file "/" = false ->
  join root [dir; file] = root +:+ "/" +:+ dir +:+ "/" +:+ file.
Proof.
  intros Hr Hre (Hd & Hds & Hde) Hf. unfold join. simpl fold_left.
  rewrite (join2_plain root dir) by assumption.
  rewrite join2_plain.
  - now rewrite !append_assoc.
  - now apply append_nonempty_l.
  - rewrite endswith_slash_append; [| now apply append_nonempty_l].
    rewrite (endswith_slash_append "/" dir); assumption.
  - assumption.
Qed.

Lemma other_plain : plain "other".
Proof. repeat split; discriminate. Qed.

Lemma startswith_slash_ext (name ext : string) :
  startswith name "/" = false -> startswith ext "/" = false ->
  startswith (name +:+ ext) "/" = false.
Proof.
  destruct name as [|c name]; [auto |].
  unfold startswith. intros H _.
  change (String c name +:+ ext) with (String c (name +:+ ext)).
  rewrite prefix_cons in *. destruct (ascii_dec "/" c); [| reflexivity].
  now rewrite prefix_nil in *.
Qed.

(** C4. The locator resolves (CacheFile, PlatformInfo) by a chain in
    which the first match wins and exactly one branch runs: with a
    host-config given, CacheFile is its absolute path and PlatformInfo
    its base name without a trailing ".cmake"; else with SYS_TYPE in the
    environment, PlatformInfo is what stands before its first underscore
    and CacheFile is configs-root joined with PlatformInfo and
    compiler.cmake; else PlatformInfo is the host name and CacheFile is
    configs-root joined with "other" and hostname.cmake.  The joined
    paths are the slash-separated concatenations whenever the components
    are plain, and the compiler flag defaults to "gnu". *)
Theorem C4_cache_file_locator (a : args.t) (p : Proc) (scriptsdir : string) (w : World) :
  ((args.hostconfig a <> ""
    /\ exists platform_info msg,
        without_ext ".cmake" (basename (abspath (cwd w) (args.hostconfig a))) platform_info
        /\ find_cmake_cache_file a p scriptsdir w =
             (Ok (abspath (cwd w) (args.hostconfig a), platform_info),
              emit (Stdout msg) w))
   \/ (args.hostconfig a = ""
       /\ exists systype platform_info msg,
           environ p !! "SYS_TYPE" = Some systype
           /\ before_first "_" systype platform_info
           /\ find_cmake_cache_file a p scriptsdir w =
                (Ok (join (replace scriptsdir "scripts" "host-configs")
                       [platform_info; args.compiler a +:+ ".cmake"],
                     platform_info),
                 emit (Stdout msg) w))
   \/ (args.hostconfig a = ""
       /\ environ p !! "SYS_TYPE" = None
       /\ exists msg,
           find_cmake_cache_file a p scriptsdir w =
             (Ok (join (replace scriptsdir "scripts" "host-configs")
                    ["other"; node p +:+ ".cmake"],
                  node p),
              emit (Stdout msg) w)))
  /\ (replace scriptsdir "scripts" "host-configs" <> "" ->
      endswith (replace scriptsdir "scripts" "host-configs") "/" = false ->
      (forall platform_info,
          plain platform_info -> startswith (args.compiler a) "/" = false ->
          join (replace scriptsdir "scripts" "host-configs")
            [platform_info; args.compiler a +:+ ".cmake"]
          = replace scriptsdir "scripts" "host-configs"
              +:+ "/" +:+ platform_info +:+ "/" +:+ args.compiler a +:+ ".cmake")
      /\ (startswith (node p) "/" = false ->
          join (replace scriptsdir "scripts" "host-configs")
            ["other"; node p +:+ ".cmake"]
          = replace scriptsdir "scripts" "host-configs"
              +:+ "/" +:+ "other" +:+ "/" +:+ node p +:+ ".cmake"))
  /\ args.compiler args.defaults = "gnu".
Proof.
  split; [| split; [| reflexivity]].
  - destruct (String.eqb_spec (args.hostconfig a) "") as [Hhc | Hhc].
    + right. destruct (environ p !! "SYS_TYPE") as [systype |] eqn:E.
      * left. split; [assumption |].
        eexists systype, _, _. split; [reflexivity |].
        split; [apply split_hd |].
        now apply locator_systype.
      * right. split; [assumption |]. split; [reflexivity |].
        eexists. now apply locator_hostname.
    + left. split; [assumption |].
      eexists _, _. split; [apply strip_cmake |].
      now apply locator_hostconfig.
  - intros Hr Hre. split.
    + intros platform_info Hpi Hc. apply join_plain; try assumption.
      now apply startswith_slash_ext.
    + intros Hn. apply join_plain; try assumption; [apply other_plain |].
      now apply startswith_slash_ext.
Qed.

Lemma C4_cache_file_locator_witness :
  join (replace "/work/axom/scripts" "scripts" "host-configs") ["toss"; "gnu.cmake"]
  = "/work/axom/host-configs/toss/gnu.cmake"
  /\ join (replace "/work/axom/scripts" "scripts" "host-configs")
       ["other"; "quartz7.cmake"]
     = "/work/axom/host-configs/other/quartz7.cmake".
Proof.
  destruct (C4_cache_file_locator args.defaults Sample.toss "/work/axom/scripts"
              Sample.start) as (_ & Hpaths & _).
  destruct Hpaths as [Hsys Hhost]; [discriminate | reflexivity |].
  split.
  - apply (Hsys "toss"); [repeat split; discriminate | reflexivity].
  - apply Hhost. reflexivity.
Defined.

(** C7 fails as stated: each of the three sources can yield the empty
string. *)
Lemma C7_counterexample :
  fst (find_cmake_cache_file args.defaults Sample.underscore "/work/axom/scripts"
         Sample.start)
  = Ok ("/work/axom/host-configs/gnu.cmake", "")
  /\ fst (find_cmake_cache_file (Sample.with_hostconfig "configs/.cmake") Sample.foo
            "/work/axom/scripts" Sample.start)
     = Ok ("/work/axom/configs/.cmake", "")
  /\ fst (find_cmake_cache_file args.defaults Sample.nameless "/work/axom/scripts"
            Sample.start)
     = Ok ("/work/axom/host-configs/other/.cmake", "").
Proof. repeat split; vm_compute; reflexivity. Qed.

(** C7, amended. PlatformInfo comes from exactly one of its three
sources, and it is empty exactly when that source is degenerate: the
base name of the host-config's absolute path is empty or is ".cmake";
the SYS_TYPE value is empty or begins with an underscore; the host name
is empty. *)
Theorem C7_platform_info_source (a : args.t) (p : Proc) (scriptsdir : string) (w : World) :
  exists cachefile platform_info w',
    find_cmake_cache_file a p scriptsdir w = (Ok (cachefile, platform_info), w')
    /\ ((args.hostconfig a <> ""
         /\ cachefile = abspath (cwd w) (args.hostconfig a)
         /\ without_ext ".cmake" (basename cachefile) platform_info
         /\ (platform_info = ""
             <-> basename cachefile = "" \/ basename cachefile = ".cmake"))
        \/ (args.hostconfig a = ""
            /\ exists systype,
                environ p !! "SYS_TYPE" = Some systype
                /\ before_first "_" systype platform_info
                /\ (platform_info = ""
                    <-> systype = "" \/ exists rest, systype = String "_" rest))
        \/ (args.hostconfig a = ""
            /\ environ p !! "SYS_TYPE" = None
            /\ platform_info = node p)).
Proof.
  destruct (String.eqb_spec (args.hostconfig a) "") as [Hhc | Hhc].
  - destruct (environ p !! "SYS_TYPE") as [systype |] eqn:E.
    + eexists _, _, _. split; [exact (locator_systype a p scriptsdir w systype Hhc E) |].
      right; left. split; [assumption |]. exists systype.
      split; [reflexivity |]. split; [apply split_hd | apply split_hd_empty].
    + eexists _, _, _. split; [exact (locator_hostname a p scriptsdir w Hhc E) |].
      right; right. repeat split; assumption.
  - eexists _, _, _. split; [exact (locator_hostconfig a p scriptsdir w Hhc) |].
    left. split; [assumption |]. split; [reflexivity |].
    split; [apply strip_cmake | apply strip_cmake_empty].
Qed.

End LocatorFacts.

(** ** Facts about [replace] and [os.path] *)

Module PathFacts.
Import PyStr PosixPath PyStrFacts.
#[local] Arguments String.append !_ _ / : simpl nomatch.
Local Open Scope list_scope.

(** *** [replace] *)

Lemma replace_from_skip (old new x post : string) :
  replace_from old new (String.length x) (x +:+ post) = replace_from old new 0 post.
Proof.
  induction x as [|c x IH]; simpl; [| exact IH].
  destruct post; reflexivity.
Qed.

Lemma replace_from_match (old new post : string) :
  old <> "" ->
  replace_from old new 0 (old +:+ post) = new +:+ replace_from old new 0 post.
Proof.
  destruct old as [|c old]; [congruence | intros _].
  change (String c old +:+ post) with (String c (old +:+ post)).
  cbn [replace_from].
  change (String c (old +:+ post)) with (String c old +:+ post).
  rewrite prefix_append. f_equal.
  replace (String.length (String c old) - 1) with (String.length old)
    by (simpl; lia).
  apply replace_from_skip.
Qed.

Lemma replace_from_before (old new pre post : string) (i : nat) :
  (forall j, In j (occurrences_from old i (pre +:+ post)) -> i + String.length pre <= j) ->
  replace_from old new 0 (pre +:+ post) = pre +:+ replace_from old new 0 post.
Proof.
  revert i; induction pre as [|c pre IH]; intros i H; [reflexivity |].
  change (String c pre +:+ post) with (String c (pre +:+ post)) in *.
  cbn [replace_from occurrences_from] in *.
  destruct (String.prefix old (String c (pre +:+ post))).
  - specialize (H i (or_introl eq_refl)). simpl in H. lia.
  - simpl. f_equal. apply (IH (S i)). intros j Hj.
    specialize (H j Hj). simpl in H. lia.
Qed.

Lemma replace_nonempty (old new s : string) :
  old <> "" -> replace s old new = replace_from old new 0 s.
Proof. destruct old; [congruence | reflexivity]. Qed.

(** the first occurrence is replaced and the scan resumes behind it *)
Lemma replace_first (old new pre post : string) :
  old <> "" ->
  (forall j, In j (occurrences old (pre +:+ old +:+ post)) -> String.length pre <= j) ->
  replace (pre +:+ old +:+ post) old new = pre +:+ new +:+ replace post old new.
Proof.
  intros Hold H. rewrite !replace_nonempty by assumption.
  rewrite (replace_from_before old new pre (old +:+ post) 0) by exact H.
  now rewrite replace_from_match.
Qed.

(** without an occurrence nothing changes *)
Lemma replace_none (old new s : string) :
  old <> "" -> occurrences old s = [] -> replace s old new = s.
Proof.
  intros Hold H. rewrite replace_nonempty by assumption.
  pose proof (replace_from_before old new s "" 0) as R.
  rewrite !append_nil_r in R. rewrite R; [reflexivity |].
  unfold occurrences in H. rewrite H. intros j [].
Qed.

Lemma replace_nil (old new : string) : old <> "" -> replace "" old new = "".
Proof. destruct old; [congruence | reflexivity]. Qed.

(** the only occurrence, at the very end *)
Lemma replace_last_only (old new pre : string) :
  old <> "" ->
  occurrences old (pre +:+ old) = [String.length pre] ->
  replace (pre +:+ old) old new = pre +:+ new.
Proof.
  intros Hold H.
  pose proof (replace_first old new pre "" Hold) as R.
  rewrite !append_nil_r in R. rewrite R.
  - now rewrite replace_nil, append_nil_r.
  - rewrite H. intros j [<- | []]. lia.
Qed.

Lemma append_inv_head (a x y : string) : a +:+ x = a +:+ y -> x = y.
Proof. induction a as [|c a IH]; simpl; [auto | intros H; injection H; auto]. Qed.

(** *** [split], [join] and the last component *)

Lemma split_no_sep (c : ascii) (name : string) :
  has_char c name = false -> PyStr.split c name = [name].
Proof.
  induction name as [|x name IH]; simpl; [reflexivity |].
  intros H. apply orb_false_iff in H as [Hx Hn].
  rewrite Hx, (IH Hn). reflexivity.
Qed.

Lemma split_nonempty (c : ascii) (x : string) : PyStr.split c x <> [].
Proof.
  destruct x as [|a x]; simpl; [discriminate |].
  destruct (Ascii.eqb a c); [discriminate |].
  destruct (PyStr.split c x); discriminate.
Qed.

Lemma split_snoc (c : ascii) (x name : string) :
  has_char c name = false ->
  PyStr.split c (x +:+ String c name) = PyStr.split c x ++ [name].
Proof.
  intros Hn. induction x as [|a x IH]; simpl.
  - now rewrite Ascii.eqb_refl, split_no_sep.
  - rewrite IH. destruct (Ascii.eqb a c); [reflexivity |].
    pose proof (split_nonempty c x).
    destruct (PyStr.split c x); [congruence | reflexivity].
Qed.

Lemma rfind1_no_sep (c : ascii) (name : string) :
  has_char c name = false -> rfind1 c name = 0.
Proof.
  induction name as [|x name IH]; simpl; [reflexivity |].
  intros H. apply orb_false_iff in H as [Hx Hn].
  now rewrite (IH Hn), Hx.
Qed.

Lemma rfind1_snoc (c : ascii) (q name : string) :
  has_char c name = false ->
  rfind1 c (q +:+ String c name) = S (String.length q).
Proof.
  intros Hn. induction q as [|a q IH]; simpl.
  - now rewrite rfind1_no_sep, Ascii.eqb_refl.
  - now rewrite IH.
Qed.

Lemma basename_dir_prefix (dir name : string) :
  dir_prefix dir -> has_char sep name = false -> basename (dir +:+ name) = name.
Proof.
  intros Hd Hn. unfold basename, split. cbn [snd].
  assert (rfind1 sep (dir +:+ name) = String.length dir) as ->.
  { destruct Hd as [-> | [q ->]]; [now apply rfind1_no_sep |].
    rewrite append_assoc. change ("/" +:+ name) with (String sep name).
    rewrite rfind1_snoc by assumption.
    rewrite length_append. simpl. lia. }
  rewrite length_append.
  replace (String.length dir + String.length name - String.length dir)
    with (String.length name) by lia.
  apply substring_skip_append.
Qed.

Lemma join_cons (s a : string) (l : list string) :
  l <> [] -> PyStr.join s (a :: l) = a +:+ s +:+ PyStr.join s l.
Proof. destruct l; [congruence | reflexivity]. Qed.

Lemma join_snoc (comps : list string) (name : string) :
  exists dir, PyStr.join "/" (comps ++ [name]) = dir +:+ name /\ dir_prefix dir.
Proof.
  induction comps as [|a comps (dir & E & Hd)].
  - exists "". split; [reflexivity | now left].
  - exists (a +:+ "/" +:+ dir). split.
    + change ((a :: comps) ++ [name]) with (a :: (comps ++ [name])).
      rewrite join_cons by (destruct comps; discriminate).
      rewrite E. now rewrite !append_assoc.
    + right. destruct Hd as [-> | [q ->]].
      * exists a. now rewrite append_nil_r.
      * exists (a +:+ "/" +:+ q). now rewrite !append_assoc.
Qed.

Lemma norm_step_simple (k : nat) (comps : list string) (name : string) :
  simple_name name -> norm_step k comps name = comps ++ [name].
Proof.
  intros (_ & H0 & H1 & H2). unfold norm_step.
  rewrite (proj2 (String.eqb_neq name "") H0), (proj2 (String.eqb_neq name ".") H1),
    (proj2 (String.eqb_neq name "..") H2).
  reflexivity.
Qed.

Lemma dir_prefix_slashes (slashes dir : string) :
  dir_prefix slashes -> dir_prefix dir -> dir_prefix (slashes +:+ dir).
Proof.
  intros Hs [-> | [q ->]].
  - now rewrite append_nil_r.
  - right. exists (slashes +:+ q). now rewrite append_assoc.
Qed.

Lemma normpath_snoc (x name : string) :
  simple_name name ->
  exists dir, normpath (x +:+ String sep name) = dir +:+ name /\ dir_prefix dir.
Proof.
  intros Hn. pose proof Hn as (Hs & H0 & _). unfold normpath.
  destruct (String.eqb_spec (x +:+ String sep name) "") as [E | _].
  { destruct x; discriminate E. }
  cbv zeta. rewrite split_snoc by assumption.
  rewrite fold_left_app. cbn [fold_left]. rewrite norm_step_simple by assumption.
  destruct (join_snoc
              (fold_left
                 (norm_step
                    (if startswith (x +:+ String sep name) "/"
                     then if startswith (x +:+ String sep name) "//"
                             && negb (startswith (x +:+ String sep name) "///")
                          then 2 else 1
                     else 0))
                 (PyStr.split sep x) []) name) as (dir & -> & Hd).
  assert (forall slashes, dir_prefix slashes ->
            exists dir', (if String.eqb (slashes +:+ dir +:+ name) ""
                          then "." else slashes +:+ dir +:+ name) = dir' +:+ name
                         /\ dir_prefix dir') as K.
  { intros slashes Hsl. exists (slashes +:+ dir). split.
    - destruct (String.eqb_spec (slashes +:+ dir +:+ name) "") as [E | _].
      + apply (f_equal String.length) in E. rewrite !length_append in E.
        destruct name; [congruence | simpl in E; lia].
      + now rewrite append_assoc.
    - now apply dir_prefix_slashes. }
  destruct (startswith (x +:+ String sep name) "/").
  - destruct (startswith (x +:+ String sep name) "//"
              && negb (startswith (x +:+ String sep name) "///")).
    + apply (K "//"). right. now exists "/".
    + apply (K "/"). right. now exists "".
  - apply (K ""). now left.
Qed.

Lemma normpath_simple (name : string) :
  simple_name name -> normpath name = name.
Proof.
  intros Hn. pose proof Hn as (Hs & H0 & _). unfold normpath.
  rewrite (proj2 (String.eqb_neq name "") H0). cbv zeta.
  assert (startswith name "/" = false) as ->.
  { destruct name as [|c name]; [reflexivity |].
    unfold startswith. rewrite prefix_cons. simpl in Hs.
    apply orb_false_iff in Hs as [Hc _].
    destruct (ascii_dec "/" c) as [<- |]; [discriminate Hc | reflexivity]. }
  rewrite split_no_sep by assumption. cbn [fold_left].
  rewrite norm_step_simple by assumption. cbn [app PyStr.join].
  now rewrite (proj2 (String.eqb_neq name "") H0).
Qed.

(** the last component of the absolute path of a simple name is the
    name, whatever the working directory *)
Lemma basename_abspath_simple (cwd name : string) :
  simple_name name -> basename (abspath cwd name) = name.
Proof.
  intros Hn. pose proof Hn as (Hs & H0 & _). unfold abspath, isabs.
  assert (startswith name "/" = false) as ->.
  { destruct name as [|c name]; [reflexivity |].
    unfold startswith. rewrite prefix_cons. simpl in Hs.
    apply orb_false_iff in Hs as [Hc _].
    destruct (ascii_dec "/" c) as [<- |]; [discriminate Hc | reflexivity]. }
  unfold join. cbn [fold_left]. unfold join2.
  assert (startswith name "/" = false) as ->.
  { destruct name as [|c name]; [reflexivity |].
    unfold startswith. rewrite prefix_cons. simpl in Hs.
    apply orb_false_iff in Hs as [Hc _].
    destruct (ascii_dec "/" c) as [<- |]; [discriminate Hc | reflexivity]. }
  destruct (String.eqb_spec cwd "") as [-> | Hc]; cbn [orb].
  - change ("" +:+ name) with name. rewrite normpath_simple by assumption.
    apply (basename_dir_prefix "" name); [now left | assumption].
  - destruct (endswith cwd "/") eqn:E.
    + destruct (endswith_split _ _ E) as [stem ->].
      rewrite append_assoc. change ("/" +:+ name) with (String sep name).
      destruct (normpath_snoc stem name Hn) as (dir & -> & Hd).
      now apply basename_dir_prefix.
    + change ("/" +:+ name) with (String sep name).
      destruct (normpath_snoc cwd name Hn) as (dir & -> & Hd).
      now apply basename_dir_prefix.
Qed.

End PathFacts.

(** ** config-build.py: configs-root, directory names, command line *)

Module PolicyFacts.
Import PyStr PosixPath PyStrFacts PathFacts ConfigBuild LocatorFacts.
#[local] Arguments String.append !_ _ / : simpl nomatch.
Local Open Scope py_scope.

(** joined to relative components, a path stays at the front *)
Lemma join_relative (comps : list string) (root : string) :
  Forall (fun c => isabs c = false) comps ->
  exists tail, join root comps = root +:+ tail.
Proof.
  intros H. revert root; induction H as [|c comps Hc _ IH]; intros root.
  - exists "". now rewrite append_nil_r.
  - unfold join in *. cbn [fold_left]. unfold join2 at 2.
    unfold isabs in Hc. rewrite Hc.
    destruct (String.eqb root "" || endswith root "/").
    + destruct (IH (root +:+ c)) as [tail ->]. exists (c +:+ tail).
      apply append_assoc.
    + destruct (IH (root +:+ "/" +:+ c)) as [tail ->]. exists ("/" +:+ c +:+ tail).
      now rewrite !append_assoc.
Qed.

(** C10. Without a host-config the locator joins its components
    (PlatformInfo and <compiler>.cmake, or "other" and <hostname>.cmake)
    to the script directory with every "scripts" replaced by
    "host-configs".  So with a script directory whose only occurrence of
    "scripts" is its last component, the cache file is resolved in the
    sibling host-configs directory; with a further occurrence before it,
    that one is rewritten too and the cache file is resolved in another
    directory (and, the components being relative, is another path than
    the one in the sibling directory); with no occurrence, in the script
    directory itself. *)
Theorem C10_configs_root (a : args.t) (p : Proc) (scriptsdir : string) (w : World) :
  args.hostconfig a = "" ->
  exists cachefile platform_info w',
    find_cmake_cache_file a p scriptsdir w = (Ok (cachefile, platform_info), w')
    /\ cachefile
       = join (replace scriptsdir "scripts" "host-configs") (cache_file_components a p)
    /\ (forall parent,
          scriptsdir = parent +:+ "/scripts" ->
          occurrences "scripts" scriptsdir = [String.length parent + 1] ->
          cachefile = join (parent +:+ "/host-configs") (cache_file_components a p))
    /\ (forall pre rest,
          scriptsdir = pre +:+ "scripts" +:+ rest +:+ "/scripts" ->
          (forall j, In j (occurrences "scripts" scriptsdir) -> String.length pre <= j) ->
          cachefile
          = join (pre +:+ "host-configs"
                    +:+ replace (rest +:+ "/scripts") "scripts" "host-configs")
              (cache_file_components a p)
          /\ replace scriptsdir "scripts" "host-configs"
             <> pre +:+ "scripts" +:+ rest +:+ "/host-configs"
          /\ (Forall (fun c => isabs c = false) (cache_file_components a p) ->
              cachefile
              <> join (pre +:+ "scripts" +:+ rest +:+ "/host-configs")
                   (cache_file_components a p)))
    /\ (occurrences "scripts" scriptsdir = [] ->
        cachefile = join scriptsdir (cache_file_components a p)).
Proof.
  intros Hhc.
  assert ("scripts" <> "") as Hne by discriminate.
  assert (exists platform_info w',
             find_cmake_cache_file a p scriptsdir w
             = (Ok (join (replace scriptsdir "scripts" "host-configs")
                      (cache_file_components a p), platform_info), w'))
    as (platform_info & w' & Hfind).
  { unfold cache_file_components.
    destruct (environ p !! "SYS_TYPE") as [systype |] eqn:E.
    - eexists _, _. exact (locator_systype a p scriptsdir w systype Hhc E).
    - eexists _, _. exact (locator_hostname a p scriptsdir w Hhc E). }
  exists (join (replace scriptsdir "scripts" "host-configs") (cache_file_components a p)),
    platform_info, w'.
  split; [exact Hfind |]. split; [reflexivity |]. split; [| split].
  - intros parent -> H. f_equal.
    change (parent +:+ "/scripts") with (parent +:+ "/" +:+ "scripts") in *.
    rewrite <- append_assoc in *.
    change (parent +:+ "/host-configs") with (parent +:+ "/" +:+ "host-configs").
    rewrite <- (append_assoc parent "/" "host-configs").
    apply replace_last_only; [assumption |].
    rewrite H, length_append. reflexivity.
  - intros pre rest -> H.
    rewrite replace_first by assumption.
    split; [reflexivity |]. split.
    + intros E. apply append_inv_head in E. discriminate E.
    + intros Hrel E.
      destruct (join_relative (cache_file_components a p)
                  (pre +:+ "host-configs"
                     +:+ replace (rest +:+ "/scripts") "scripts" "host-configs") Hrel)
        as [t1 E1].
      destruct (join_relative (cache_file_components a p)
                  (pre +:+ "scripts" +:+ rest +:+ "/host-configs") Hrel)
        as [t2 E2].
      rewrite E1, E2, !append_assoc in E.
      apply append_inv_head in E. discriminate E.
  - intros H. f_equal. now apply replace_none.
Qed.

Lemma C10_configs_root_witness :
  fst (find_cmake_cache_file args.defaults Sample.foo "/work/axom/scripts" Sample.start)
  = Ok ("/work/axom/host-configs/other/foo.cmake", "foo")
  /\ fst (find_cmake_cache_file args.defaults Sample.foo "/home/scripts/axom/scripts"
            Sample.start)
     = Ok ("/home/host-configs/axom/host-configs/other/foo.cmake", "foo")
  /\ fst (find_cmake_cache_file args.defaults Sample.foo "/home/scripts/axom/scripts"
            Sample.start)
     <> Ok ("/home/scripts/axom/host-configs/other/foo.cmake", "foo").
Proof.
  split; [| split].
  - destruct (C10_configs_root args.defaults Sample.foo "/work/axom/scripts"
                Sample.start eq_refl)
      as (cf & pi & w' & Hfind & _ & Hsib & _).
    pose proof (f_equal fst Hfind) as Hf. cbn [fst] in Hf. rewrite Hf.
    rewrite (Hsib "/work/axom" eq_refl eq_refl).
    vm_compute in Hf. injection Hf as _ <-. vm_compute. reflexivity.
  - destruct (C10_configs_root args.defaults Sample.foo "/home/scripts/axom/scripts"
                Sample.start eq_refl)
      as (cf & pi & w' & Hfind & _ & _ & Hmore & _).
    pose proof (f_equal fst Hfind) as Hf. cbn [fst] in Hf. rewrite Hf.
    destruct (Hmore "/home/" "/axom" eq_refl) as (E & _).
    { vm_compute. intros j [<- | [<- | []]]; lia. }
    rewrite E. vm_compute in Hf. injection Hf as _ <-. vm_compute. reflexivity.
  - destruct (C10_configs_root args.defaults Sample.foo "/home/scripts/axom/scripts"
                Sample.start eq_refl)
      as (cf & pi & w' & Hfind & _ & _ & Hmore & _).
    pose proof (f_equal fst Hfind) as Hf. cbn [fst] in Hf. rewrite Hf.
    destruct (Hmore "/home/" "/axom" eq_refl) as (_ & _ & Hdiff).
    { vm_compute. intros j [<- | [<- | []]]; lia. }
    intros [= E _]. apply Hdiff; [| rewrite E; vm_compute; reflexivity].
    repeat constructor.
Defined.

Lemma simple_build_foo : simple_name "build-foo-gnu-release".
Proof. repeat split; discriminate. Qed.

(** C5. Without --buildpath and --installpath the directories are the
    absolute paths of build-<PlatformInfo>-<buildtype, lower case> and
    install-<PlatformInfo>-<buildtype, lower case> when a host-config
    was given, where the compiler flag plays no part, and of
    build-<PlatformInfo>-<compiler>-<buildtype, lower case> and its
    install counterpart otherwise.  With --buildtype Release --compiler
    gnu, no SYS_TYPE and the host name foo, the last component of
    BuildPath is build-foo-gnu-release. *)
Theorem C5_directory_names (a : args.t) (platform_info : string) (w : World) :
  args.buildpath a = "" -> args.installpath a = "" ->
  compute_buildpath a platform_info w
  = (Ok (abspath (cwd w) (policy_name "build" a platform_info)), w)
  /\ compute_installpath a platform_info w
     = (Ok (abspath (cwd w) (policy_name "install" a platform_info)), w)
  /\ (args.hostconfig a <> "" ->
      policy_name "build" a platform_info
      = "build-" +:+ platform_info +:+ "-" +:+ lower (buildtype_str (args.buildtype a))
      /\ policy_name "install" a platform_info
         = "install-" +:+ platform_info +:+ "-" +:+ lower (buildtype_str (args.buildtype a))
      /\ forall c,
          compute_buildpath (with_compiler c a) platform_info w
          = compute_buildpath a platform_info w
          /\ compute_installpath (with_compiler c a) platform_info w
             = compute_installpath a platform_info w)
  /\ (args.hostconfig a = "" ->
      policy_name "build" a platform_info
      = "build-" +:+ platform_info +:+ "-" +:+ args.compiler a
          +:+ "-" +:+ lower (buildtype_str (args.buildtype a))
      /\ policy_name "install" a platform_info
         = "install-" +:+ platform_info +:+ "-" +:+ args.compiler a
             +:+ "-" +:+ lower (buildtype_str (args.buildtype a)))
  /\ (forall p scriptsdir,
        args.hostconfig a = "" -> args.compiler a = "gnu" ->
        args.buildtype a = Release ->
        environ p !! "SYS_TYPE" = None -> node p = "foo" ->
        exists cachefile w1 buildpath,
          find_cmake_cache_file a p scriptsdir w = (Ok (cachefile, "foo"), w1)
          /\ compute_buildpath a "foo" w1 = (Ok buildpath, w1)
          /\ basename buildpath = "build-foo-gnu-release").
Proof.
  intros Hb Hi.
  assert (forall a' pi' w', args.buildpath a' = "" ->
            compute_buildpath a' pi' w'
            = (Ok (abspath (cwd w') (policy_name "build" a' pi')), w')) as HB.
  { intros a' pi' w' Hb'. unfold compute_buildpath, policy_name. rewrite Hb'.
    destruct (String.eqb (args.hostconfig a') ""); reflexivity. }
  assert (forall a' pi' w', args.installpath a' = "" ->
            compute_installpath a' pi' w'
            = (Ok (abspath (cwd w') (policy_name "install" a' pi')), w')) as HI.
  { intros a' pi' w' Hi'. unfold compute_installpath, policy_name. rewrite Hi'.
    destruct (String.eqb (args.hostconfig a') ""); reflexivity. }
  split; [now apply HB |]. split; [now apply HI |]. split; [| split].
  - intros Hhc. unfold policy_name.
    rewrite (proj2 (String.eqb_neq (args.hostconfig a) "") Hhc).
    split; [reflexivity |]. split; [reflexivity |].
    intros c. rewrite !HB, !HI by assumption. unfold policy_name. cbn [with_compiler args.hostconfig args.buildtype].
    rewrite (proj2 (String.eqb_neq (args.hostconfig a) "") Hhc). split; reflexivity.
  - intros Hhc. unfold policy_name. rewrite Hhc. split; reflexivity.
  - intros p scriptsdir Hhc Hc Hbt E Hn.
    eexists _, _, _. split; [| split].
    + rewrite <- Hn. exact (locator_hostname a p scriptsdir w Hhc E).
    + now apply HB.
    + unfold policy_name. rewrite Hhc, Hc, Hbt.
      apply (basename_abspath_simple _ "build-foo-gnu-release"), simple_build_foo.
Qed.

Lemma C5_directory_names_witness :
  compute_buildpath Sample.release_gnu "foo" Sample.start
  = (Ok "/work/axom/build-foo-gnu-release", Sample.start)
  /\ compute_installpath Sample.release_gnu "foo" Sample.start
     = (Ok "/work/axom/install-foo-gnu-release", Sample.start).
Proof.
  destruct (C5_directory_names Sample.release_gnu "foo" Sample.start
              eq_refl eq_refl) as (Hb & Hi & _).
  split; [exact Hb | exact Hi].
Defined.

End PolicyFacts.

(** ** config-build.py: the composed command line *)

Module CommandFacts.
Import PyStr PosixPath PyStrFacts ConfigBuild.
#[local] Arguments String.append !_ _ / : simpl nomatch.
Local Open Scope list_scope.




















End CommandFacts.

(** ** config-build.py: the run *)

Module RunFacts.
Import PyStr PosixPath PyStrFacts ConfigBuild LocatorFacts.
Local Open Scope py_scope.
Local Open Scope list_scope.

(** the locator always returns, having printed one line *)
Lemma locator_total (a : args.t) (p : Proc) (scriptsdir : string) (w : World) :
  exists cachefile platform_info msg,
    find_cmake_cache_file a p scriptsdir w
    = (Ok (cachefile, platform_info), emit (Stdout msg) w).
Proof.
  destruct (String.eqb_spec (args.hostconfig a) "") as [Hhc | Hhc].
  - destruct (environ p !! "SYS_TYPE") as [systype |] eqn:E.
    + eexists _, _, _. exact (locator_systype a p scriptsdir w systype Hhc E).
    + eexists _, _, _. exact (locator_hostname a p scriptsdir w Hhc E).
  - eexists _, _, _. exact (locator_hostconfig a p scriptsdir w Hhc).
Qed.

Lemma bind_ok {A B : Type} (m : M A) (k : A -> M B) (w w' : World) (x : A) :
  m w = (Ok x, w') -> bind m k w = k x w'.
Proof. unfold bind. now intros ->. Qed.

Lemma bind_raise {A B : Type} (m : M A) (k : A -> M B) (w w' : World) (e : Exn) :
  m w = (Raise e, w') -> bind m k w = (Raise e, w').
Proof. unfold bind. now intros ->. Qed.

Lemma lookup_path_emit (e : Event) (w : World) (path : string) :
  lookup_path (emit e w) path = lookup_path w path.
Proof. reflexivity. Qed.

Lemma path_exists_emit (e : Event) (w : World) (path : string) :
  path_exists (emit e w) path = path_exists w path.
Proof. reflexivity. Qed.

Lemma path_exists_lookup (w : World) (path : string) :
  path_exists w path = true -> is_Some (lookup_path w path).
Proof.
  unfold path_exists. intros H. apply andb_true_iff in H as [H _].
  now apply bool_decide_eq_true_1 in H.
Qed.

Lemma path_exists_absent (w : World) (path : string) :
  lookup_path w path = None -> path_exists w path = false.
Proof.
  unfold path_exists. intros ->.
  rewrite bool_decide_eq_false_2 by (intros [? ?]; discriminate). reflexivity.
Qed.



(** *** Directory reset *)

Lemma mkdir_missing_keeps (m : gmap string Kind) (d k : string) (v : Kind) :
  m !! k = Some v -> mkdir_missing m d !! k = Some v.
Proof.
  intros H. unfold mkdir_missing. destruct (m !! d) eqn:E; [assumption |].
  rewrite lookup_insert_ne; [assumption | congruence].
Qed.

Lemma fold_mkdir_keeps (l : list string) (m : gmap string Kind) (k : string) (v : Kind) :
  m !! k = Some v -> fold_left mkdir_missing l m !! k = Some v.
Proof.
  revert m; induction l as [|d l IH]; intros m H; [assumption |].
  apply IH. now apply mkdir_missing_keeps.
Qed.

Lemma fold_mkdir_creates (l : list string) (m : gmap string Kind) (r : string) :
  m !! r = None -> In r l -> fold_left mkdir_missing l m !! r = Some Dir.
Proof.
  revert m; induction l as [|d l IH]; intros m Hm Hin; [destruct Hin |].
  destruct Hin as [-> | Hin].
  - cbn [fold_left]. apply fold_mkdir_keeps. unfold mkdir_missing.
    rewrite Hm. apply lookup_insert_eq.
  - cbn [fold_left]. destruct (decide (d = r)) as [-> | Hne].
    + apply fold_mkdir_keeps. unfold mkdir_missing. rewrite Hm.
      apply lookup_insert_eq.
    + apply IH; [| assumption]. unfold mkdir_missing.
      destruct (m !! d); [assumption |]. now rewrite lookup_insert_ne.
Qed.

Lemma ancestors_from_self (pre s : string) : In (pre +:+ s) (ancestors_from pre s).
Proof.
  revert pre; induction s as [|c s IH]; intros pre.
  - rewrite append_nil_r. now left.
  - cbn [ancestors_from]. apply in_or_app. right.
    specialize (IH (pre +:+ String c "")). now rewrite append_assoc in IH.
Qed.

Lemma ancestors_self (r : string) : In r (ancestors r).
Proof. apply (ancestors_from_self "" r). Qed.

(** a successful [os.makedirs] leaves the directory in place *)
Lemma makedirs_ok (path : string) (w w' : World) :
  os_makedirs path w = (Ok tt, w') ->
  lookup_path w' path = Some Dir
  /\ cwd w' = cwd w
  /\ log w' = log w ++ [Makedirs (abspath (cwd w) path)].
Proof.
  unfold os_makedirs, lookup_path.
  destruct (fs w !! abspath (cwd w) path) eqn:E; [discriminate |].
  destruct (find _ _); [discriminate |].
  intros [= <-]. cbn [emit fs cwd log]. repeat split.
  apply fold_mkdir_creates; [assumption | apply ancestors_self].
Qed.

(** a successful [shutil.rmtree] changes the tree only *)
Lemma rmtree_ok (path : string) (w w' : World) :
  shutil_rmtree path w = (Ok tt, w') ->
  cwd w' = cwd w /\ log w' = log w ++ [Rmtree (abspath (cwd w) path)].
Proof.
  unfold shutil_rmtree.
  destruct (fs w !! abspath (cwd w) path) as [[] |]; try discriminate.
  intros [= <-]. split; reflexivity.
Qed.

(** both reset blocks run the same statements on their path *)
Lemma reset_ok (note1 note2 : string -> string) (path : string) (w w' : World) :
  (let* present := os_path_exists path in
   (if present then print (note1 path) ;; shutil_rmtree path else ret tt) ;;
   print (note2 path) ;;
   os_makedirs path) w = (Ok tt, w') ->
  lookup_path w' path = Some Dir
  /\ cwd w' = cwd w
  /\ exists before, log w' = before ++ [Makedirs (abspath (cwd w) path)].
Proof.
  unfold bind at 1, os_path_exists.
  destruct (path_exists w path).
  - unfold bind at 1 2, print.
    destruct (shutil_rmtree path (emit _ w)) as [[[] | e] w1] eqn:R; [| discriminate].
    apply rmtree_ok in R as [Rc Rl]. cbn [emit cwd] in Rc.
    unfold bind. intros H. apply makedirs_ok in H as (Hd & Hc & Hl).
    cbn [emit cwd log] in *. rewrite Rc in *.
    split; [exact Hd |]. split; [exact Hc |]. eexists. exact Hl.
  - unfold bind, ret, print. intros H. apply makedirs_ok in H as (Hd & Hc & Hl).
    cbn [emit cwd log] in *.
    split; [exact Hd |]. split; [exact Hc |]. eexists. exact Hl.
Qed.

Lemma compute_installpath_total (a : args.t) (platform_info : string) (w : World) :
  exists installpath, compute_installpath a platform_info w = (Ok installpath, w).
Proof.
  unfold compute_installpath.
  destruct (String.eqb (args.installpath a) ""), (String.eqb (args.hostconfig a) "");
    eexists; reflexivity.
Qed.

Lemma compute_buildpath_total (a : args.t) (platform_info : string) (w : World) :
  exists buildpath, compute_buildpath a platform_info w = (Ok buildpath, w).
Proof.
  unfold compute_buildpath.
  destruct (String.eqb (args.buildpath a) "") eqn:E,
    (String.eqb (args.hostconfig a) ""); cbn [negb]; rewrite ?E;
    eexists; reflexivity.
Qed.

Lemma setup_install_dir_ok (a : args.t) (platform_info installpath : string)
    (w w' : World) :
  setup_install_dir a platform_info w = (Ok installpath, w') ->
  lookup_path w' installpath = Some Dir
  /\ cwd w' = cwd w
  /\ exists before, log w' = before ++ [Makedirs (abspath (cwd w) installpath)].
Proof.
  unfold setup_install_dir.
  destruct (compute_installpath_total a platform_info w) as [ip E].
  rewrite (bind_ok _ _ _ _ _ E). unfold bind at 1.
  destruct (reset_installpath ip w) as [[[] | e] w1] eqn:R; [| discriminate].
  intros [= <- <-].
  exact (reset_ok
           (fun path => "Install directory '" +:+ path +:+ "' already exists, deleting...")
           (fun path => "Creating install path '" +:+ path +:+ "'...") ip w w1 R).
Qed.

Lemma setup_build_dir_ok (a : args.t) (platform_info buildpath : string)
    (w w' : World) :
  setup_build_dir a platform_info w = (Ok buildpath, w') ->
  lookup_path w' buildpath = Some Dir
  /\ cwd w' = cwd w
  /\ exists before, log w' = before ++ [Makedirs (abspath (cwd w) buildpath)].
Proof.
  unfold setup_build_dir.
  destruct (compute_buildpath_total a platform_info w) as [bp E].
  rewrite (bind_ok _ _ _ _ _ E). unfold bind at 1.
  destruct (reset_buildpath bp w) as [[[] | e] w1] eqn:R; [| discriminate].
  intros [= <- <-].
  exact (reset_ok
           (fun path => "Build directory '" +:+ path +:+ "' already exists.  Deleting...")
           (fun path => "Creating build directory '" +:+ path +:+ "'...") bp w w1 R).
Qed.

(** C2. What the script does at the install directory: whenever the
    Setup Install Dir block completes, the install path exists as a
    directory, made by the block's own [os.makedirs] as its last effect,
    just as the build directory is made by Setup Build Dir.  On the host
    foo, with the default arguments, the install directory was absent
    before the run and is present when the command line is handed to the
    build tool. *)
Theorem C2_install_directory_created :
  (forall a platform_info w,
      match setup_install_dir a platform_info w with
      | (Ok installpath, w') =>
          lookup_path w' installpath = Some Dir
          /\ exists before,
              log w' = before ++ [Makedirs (abspath (cwd w) installpath)]
      | (Raise _, _) => True
      end)
  /\ (forall a platform_info w,
        match setup_build_dir a platform_info w with
        | (Ok buildpath, w') =>
            lookup_path w' buildpath = Some Dir
            /\ exists before,
                log w' = before ++ [Makedirs (abspath (cwd w) buildpath)]
        | (Raise _, _) => True
        end)
  /\ fs Sample.start !! "/work/axom/install-foo-gnu-debug" = None
  /\ fs (snd (configure args.defaults Sample.foo Sample.start))
       !! "/work/axom/install-foo-gnu-debug" = Some Dir
  /\ log (snd (config_build args.defaults Sample.foo Sample.start))
     = [Stdout "No SYS_TYPE in environment, using hostname config file: '/work/axom/host-configs/other/foo.cmake'";
        Stdout "Environment:"; Stdout "------------"; Stdout "{}";
        Stdout "------------";
        Stdout "Creating build directory '/work/axom/build-foo-gnu-debug'...";
        Makedirs "/work/axom/build-foo-gnu-debug";
        Stdout "Creating install path '/work/axom/install-foo-gnu-debug'...";
        Makedirs "/work/axom/install-foo-gnu-debug";
        Stdout "Changing to build directory...";
        Chdir "/work/axom/build-foo-gnu-debug";
        Stdout "Executing cmake line: 'cmake -C /work/axom/host-configs/other/foo.cmake -DCMAKE_BUILD_TYPE=Debug -DCMAKE_INSTALL_PREFIX=/work/axom/install-foo-gnu-debug /work/axom/scripts/../src '";
        Stdout "";
        Call "cmake -C /work/axom/host-configs/other/foo.cmake -DCMAKE_BUILD_TYPE=Debug -DCMAKE_INSTALL_PREFIX=/work/axom/install-foo-gnu-debug /work/axom/scripts/../src "
          "/work/axom/build-foo-gnu-debug" 2].
Proof.
  split; [| split; [| repeat split; vm_compute; reflexivity]].
  - intros a platform_info w.
    destruct (setup_install_dir a platform_info w) as [[ip | e] w'] eqn:E; [| exact I].
    destruct (setup_install_dir_ok _ _ _ _ _ E) as (Hd & _ & Hl). now split.
  - intros a platform_info w.
    destruct (setup_build_dir a platform_info w) as [[bp | e] w'] eqn:E; [| exact I].
    destruct (setup_build_dir_ok _ _ _ _ _ E) as (Hd & _ & Hl). now split.
Qed.

(** *** Running the build tool *)

(** C1 fails as stated: the build tool ends with status 2 and the script
with status 0. *)
Lemma C1_counterexample :
  List.last (log (snd (config_build args.defaults Sample.foo Sample.start))) (Stdout "")
  = Call "cmake -C /work/axom/host-configs/other/foo.cmake -DCMAKE_BUILD_TYPE=Debug -DCMAKE_INSTALL_PREFIX=/work/axom/install-foo-gnu-debug /work/axom/scripts/../src "
      "/work/axom/build-foo-gnu-debug" 2
  /\ script_exit_status args.defaults Sample.foo Sample.start = 0%Z.
Proof. split; vm_compute; reflexivity. Qed.

(** C1, amended. When the cache file exists and the directories are set
up (the steps before Run CMake succeed), the exit status of the script
never follows the one of the build tool.  Either the build directory is
still there to change into: then the script runs the composed command
line once, in the build directory, and ends normally, with exit status 0
whatever status the build tool ended with.  Or the build directory is
not there any more (the reset of the install directory took it away):
then [os.chdir] raises, the build tool is not started, and the exit
status of the script is 1. *)
Theorem C1_exit_status (a : args.t) (p : Proc) (w w1 : World)
    (buildpath cmakeline : string) :
  configure a p w = (Ok (buildpath, cmakeline), w1) ->
  (lookup_path w1 buildpath = Some Dir
   /\ exists w2,
       config_build a p w = (Ok tt, w2)
       /\ List.last (log w2) (Stdout "")
          = Call cmakeline (abspath (cwd w1) buildpath)
              (fst (shell p cmakeline (abspath (cwd w1) buildpath) (fs w1)))
       /\ List.filter (fun e => negb (is_print e)) (log w2)
          = List.filter (fun e => negb (is_print e)) (log w1)
              ++ [Chdir (abspath (cwd w1) buildpath);
                  Call cmakeline (abspath (cwd w1) buildpath)
                    (fst (shell p cmakeline (abspath (cwd w1) buildpath) (fs w1)))]
       /\ fs w2 = snd (shell p cmakeline (abspath (cwd w1) buildpath) (fs w1))
       /\ cwd w2 = abspath (cwd w1) buildpath
       /\ script_exit_status a p w = 0%Z)
  \/ (lookup_path w1 buildpath <> Some Dir
      /\ (exists errno,
            config_build a p w
            = (Raise (OSError errno (abspath (cwd w1) buildpath)),
               emit (Stdout "Changing to build directory...") w1))
      /\ script_exit_status a p w = 1%Z).
Proof.
  intros Hconf.
  assert (forall e w2, run_cmake p buildpath cmakeline w1 = (Raise e, w2) ->
                       config_build a p w = (Raise e, w2)
                       /\ script_exit_status a p w = 1%Z) as Hraise.
  { intros e w2 Hrun.
    assert (config_build a p w = (Raise e, w2)) as R.
    { unfold config_build. rewrite (bind_ok _ _ _ _ _ Hconf). exact Hrun. }
    split; [exact R |]. unfold script_exit_status. now rewrite R. }
  destruct (lookup_path w1 buildpath) as [[] |] eqn:Hdir; unfold lookup_path in Hdir.
  - (* a regular file *)
    right. split; [discriminate |].
    destruct (Hraise (OSError ENOTDIR (abspath (cwd w1) buildpath))
                (emit (Stdout "Changing to build directory...") w1)) as [R Hexit].
    { unfold run_cmake, bind, print, os_chdir. cbn [emit fs cwd log].
      rewrite Hdir. reflexivity. }
    split; [now exists ENOTDIR | exact Hexit].
  - (* the build directory *)
    left. split; [reflexivity |].
    assert (exists w2, run_cmake p buildpath cmakeline w1 = (Ok tt, w2)
              /\ log w2 = log w1 ++ [Stdout "Changing to build directory...";
                    Chdir (abspath (cwd w1) buildpath);
                    Stdout ("Executing cmake line: '" +:+ cmakeline +:+ "'");
                    Stdout "";
                    Call cmakeline (abspath (cwd w1) buildpath)
                      (fst (shell p cmakeline (abspath (cwd w1) buildpath) (fs w1)))]
              /\ fs w2 = snd (shell p cmakeline (abspath (cwd w1) buildpath) (fs w1))
              /\ cwd w2 = abspath (cwd w1) buildpath) as (w2 & Hrun & Hlog & Hfs & Hcwd).
    { unfold run_cmake, bind, print, os_chdir, subprocess_call.
      cbn [emit fs cwd log]. rewrite Hdir. cbn [emit fs cwd log].
      destruct (shell p cmakeline (abspath (cwd w1) buildpath) (fs w1)) as [status fs'].
      eexists. split; [reflexivity |]. cbn [emit fs cwd log fst snd].
      rewrite <- !app_assoc. repeat split. }
    assert (config_build a p w = (Ok tt, w2)) as R.
    { unfold config_build. rewrite (bind_ok _ _ _ _ _ Hconf). exact Hrun. }
    exists w2. split; [exact R |]. split; [| split; [| split; [| split]]].
    + rewrite Hlog.
      change (log w1 ++ [?a; ?b; ?c; ?d; ?e]) with (log w1 ++ [a; b; c; d] ++ [e]).
      rewrite app_assoc. apply last_last.
    + rewrite Hlog, List.filter_app. reflexivity.
    + exact Hfs.
    + exact Hcwd.
    + unfold script_exit_status. now rewrite R.
  - (* nothing there *)
    right. split; [discriminate |].
    destruct (Hraise (OSError ENOENT (abspath (cwd w1) buildpath))
                (emit (Stdout "Changing to build directory...") w1)) as [R Hexit].
    { unfold run_cmake, bind, print, os_chdir. cbn [emit fs cwd log].
      rewrite Hdir. reflexivity. }
    split; [now exists ENOENT | exact Hexit].
Qed.

Lemma C1_exit_status_witness :
  (exists w2,
      config_build args.defaults Sample.foo Sample.start = (Ok tt, w2)
      /\ List.last (log w2) (Stdout "")
         = Call "cmake -C /work/axom/host-configs/other/foo.cmake -DCMAKE_BUILD_TYPE=Debug -DCMAKE_INSTALL_PREFIX=/work/axom/install-foo-gnu-debug /work/axom/scripts/../src "
             "/work/axom/build-foo-gnu-debug" 2
      /\ script_exit_status args.defaults Sample.foo Sample.start = 0%Z)
  /\ fst (configure Sample.nested Sample.foo Sample.start)
     = Ok ("/work/axom/out/build",
           "cmake -C /work/axom/host-configs/other/foo.cmake -DCMAKE_BUILD_TYPE=Debug -DCMAKE_INSTALL_PREFIX=/work/axom/out /work/axom/scripts/../src ")
  /\ fst (config_build Sample.nested Sample.foo Sample.start)
     = Raise (OSError ENOENT "/work/axom/out/build")
  /\ script_exit_status Sample.nested Sample.foo Sample.start = 1%Z.
Proof.
  split; [| split; [vm_compute; reflexivity |]].
  - destruct (C1_exit_status args.defaults Sample.foo Sample.start
                (snd (configure args.defaults Sample.foo Sample.start))
                "/work/axom/build-foo-gnu-debug"
                "cmake -C /work/axom/host-configs/other/foo.cmake -DCMAKE_BUILD_TYPE=Debug -DCMAKE_INSTALL_PREFIX=/work/axom/install-foo-gnu-debug /work/axom/scripts/../src ")
      as [(_ & w2 & R & Hlast & _ & _ & _ & Hexit) | (Hno & _)].
    + vm_compute. reflexivity.
    + exists w2. split; [exact R |]. split; [| exact Hexit].
      rewrite Hlast. vm_compute. reflexivity.
    + exfalso. apply Hno. vm_compute. reflexivity.
  - destruct (C1_exit_status Sample.nested Sample.foo Sample.start
                (snd (configure Sample.nested Sample.foo Sample.start))
                "/work/axom/out/build"
                "cmake -C /work/axom/host-configs/other/foo.cmake -DCMAKE_BUILD_TYPE=Debug -DCMAKE_INSTALL_PREFIX=/work/axom/out /work/axom/scripts/../src ")
      as [(Hdir & _) | (_ & _ & Hexit)].
    + vm_compute. reflexivity.
    + exfalso. revert Hdir. vm_compute. discriminate.
    + split; [vm_compute; reflexivity | exact Hexit].
Defined.

End RunFacts.

(** ** build_src.py: the source directory *)

Module BuildSrcFacts.
Import PyStr PosixPath BuildSrc.

(** C8. What [main] does with UBERENV_PREFIX: when the variable names a
    valid directory and no --directory is given, the directory handed to
    [build_and_test_host_configs] is the one two levels above the
    script, not the value of the variable; the binding made from the
    variable is overwritten by the [else] branch of the --directory
    test. *)
Theorem C8_source_directory (t : Tools) (h : Host) (opts : Opts) (prefix : string) :
  environ h !! "UBERENV_PREFIX" = Some prefix ->
  isdir h prefix = true ->
  directory opts = "" ->
  built_src_dir t h opts
  = Some (abspath (getcwd h) (join (dirname (realpath_file h)) ["../.."]))
  /\ fst (main t h opts)
     = build_and_test_host_configs t
         (abspath (getcwd h) (join (dirname (realpath_file h)) ["../.."]))
         (if negb (String.eqb (archive opts) "") then archive opts
          else get_username t +:+ "/" +:+ basename (file__ h))
         (get_timestamp t).
Proof.
  intros Henv Hdir Hopt. unfold built_src_dir, main.
  rewrite Henv, Hdir, Hopt. cbn [negb String.eqb].
  destruct (negb (String.eqb (archive opts) "")); split; reflexivity.
Qed.

Lemma C8_source_directory_witness :
  environ Sample.lc_host !! "UBERENV_PREFIX" = Some "/usr/workspace/axom/src"
  /\ built_src_dir Sample.tools Sample.lc_host Sample.no_options = Some "/work/axom".
Proof.
  split; [reflexivity |].
  exact (proj1 (C8_source_directory Sample.tools Sample.lc_host Sample.no_options
                  "/usr/workspace/axom/src" eq_refl eq_refl eq_refl)).
Defined.

End BuildSrcFacts.

(** ** The fleet TPL-install drivers *)

Module UberenvFacts.
Import UberenvInstall.
Local Open Scope list_scope.

Section Driver.
Variable S : Type.
Variable installer : string -> string -> S -> Z * S.

Lemma build_one_eq (builds_dir : string) (r : Run S) (spec : string) :
  build_one S installer builds_dir r spec
  = {| machine := snd (installer builds_dir spec (machine r));
       attempts := attempts r ++ [spec];
       results := results r
                    ++ [(spec, (fst (installer builds_dir spec (machine r)) =? 0)%Z)] |}.
Proof.
  unfold build_one. now destruct (installer builds_dir spec (machine r)).
Qed.

Lemma build_one_attempts (builds_dir : string) (r : Run S) (spec : string) :
  attempts (build_one S installer builds_dir r spec) = attempts r ++ [spec]
  /\ map fst (results (build_one S installer builds_dir r spec))
     = map fst (results r) ++ [spec].
Proof.
  unfold build_one. destruct (installer builds_dir spec (machine r)).
  cbn [attempts results]. split; [reflexivity |].
  now rewrite map_app.
Qed.

Lemma fold_build_attempts (builds_dir : string) (specs : list string) (r : Run S) :
  attempts (fold_left (build_one S installer builds_dir) specs r) = attempts r ++ specs
  /\ map fst (results (fold_left (build_one S installer builds_dir) specs r))
     = map fst (results r) ++ specs.
Proof.
  revert r; induction specs as [|spec specs IH]; intros r; cbn [fold_left].
  - now rewrite !app_nil_r.
  - destruct (IH (build_one S installer builds_dir r spec)) as [-> ->].
    destruct (build_one_attempts builds_dir r spec) as [-> ->].
    now rewrite <- !app_assoc.
Qed.

Lemma forallb_snd_false (l : list (string * bool)) :
  forallb snd l = false <-> exists spec, In (spec, false) l.
Proof.
  induction l as [|[spec b] l IH]; cbn [forallb snd].
  - split; [discriminate | intros [? []]].
  - destruct b; cbn [andb].
    + rewrite IH. split; intros [x H]; exists x; [now right |].
      destruct H as [H | H]; [discriminate | assumption].
    + split; [intros _; exists spec; now left | reflexivity].
Qed.

(** C9. The driver starts the installer once for each spec, in the order
    of the list, each time in the state of the machine the installer left
    at the spec before, whether that one passed or failed; the result it
    keeps for a spec is whether the installer ended with status 0 for
    it; and it returns non-zero exactly when some spec failed.  So with
    four specs, all four are attempted, the three the installer ends
    with status 0 for are kept as passed, and the value returned is not
    zero as soon as the installer ends with another status for one of
    them. *)
Theorem C9_fleet_driver (builds_dir : string) (specs : list string) (s : S) :
  attempts (snd (full_build_and_test_of_tpls S installer builds_dir specs s)) = specs
  /\ map fst (results (snd (full_build_and_test_of_tpls S installer builds_dir specs s)))
     = specs
  /\ snd (full_build_and_test_of_tpls S installer builds_dir [] s)
     = {| machine := s; attempts := []; results := [] |}
  /\ (forall spec,
        machine (snd (full_build_and_test_of_tpls S installer builds_dir (specs ++ [spec]) s))
        = snd (installer builds_dir spec
                 (machine (snd (full_build_and_test_of_tpls S installer builds_dir specs s))))
        /\ attempts (snd (full_build_and_test_of_tpls S installer builds_dir (specs ++ [spec]) s))
           = attempts (snd (full_build_and_test_of_tpls S installer builds_dir specs s))
               ++ [spec]
        /\ results (snd (full_build_and_test_of_tpls S installer builds_dir (specs ++ [spec]) s))
           = results (snd (full_build_and_test_of_tpls S installer builds_dir specs s))
               ++ [(spec,
                    (fst (installer builds_dir spec
                            (machine (snd (full_build_and_test_of_tpls S installer
                                             builds_dir specs s)))) =? 0)%Z)])
  /\ (fst (full_build_and_test_of_tpls S installer builds_dir specs s) <> 0%Z
      <-> exists spec,
          In (spec, false)
            (results (snd (full_build_and_test_of_tpls S installer builds_dir specs s))))
  /\ (forall s1 s2 s3 s4,
        specs = [s1; s2; s3; s4] ->
        let i1 := installer builds_dir s1 s in
        let i2 := installer builds_dir s2 (snd i1) in
        let i3 := installer builds_dir s3 (snd i2) in
        let i4 := installer builds_dir s4 (snd i3) in
        snd (full_build_and_test_of_tpls S installer builds_dir specs s)
        = {| machine := snd i4;
             attempts := [s1; s2; s3; s4];
             results := [(s1, (fst i1 =? 0)%Z); (s2, (fst i2 =? 0)%Z);
                         (s3, (fst i3 =? 0)%Z); (s4, (fst i4 =? 0)%Z)] |}
        /\ (fst (full_build_and_test_of_tpls S installer builds_dir specs s) <> 0%Z
            <-> fst i1 <> 0%Z \/ fst i2 <> 0%Z \/ fst i3 <> 0%Z \/ fst i4 <> 0%Z)).
Proof.
  split; [| split; [| split; [reflexivity | split; [| split]]]].
  - unfold full_build_and_test_of_tpls. cbn [snd].
    destruct (fold_build_attempts builds_dir specs (start S s)) as [Ha _]. exact Ha.
  - unfold full_build_and_test_of_tpls. cbn [snd].
    destruct (fold_build_attempts builds_dir specs (start S s)) as [_ Hr]. exact Hr.
  - intros spec. unfold full_build_and_test_of_tpls. cbn [snd].
    rewrite fold_left_app. cbn [fold_left]. rewrite build_one_eq.
    cbn [machine attempts results]. repeat split.
  - unfold full_build_and_test_of_tpls. cbn [fst snd].
    rewrite <- forallb_snd_false.
    destruct (forallb snd _); split; intros H; congruence.
  - intros s1 s2 s3 s4 -> i1 i2 i3 i4.
    unfold full_build_and_test_of_tpls. cbn [fold_left fst snd].
    rewrite !build_one_eq. cbn [start machine attempts results app forallb fst snd].
    fold i1. fold i2. fold i3. fold i4.
    split; [reflexivity |].
    generalize (fst i1), (fst i2), (fst i3), (fst i4). intros z1 z2 z3 z4.
    destruct (Z.eqb_spec z1 0), (Z.eqb_spec z2 0), (Z.eqb_spec z3 0), (Z.eqb_spec z4 0);
      cbn [andb]; split; intros H; try congruence; try tauto;
      try (exfalso; tauto).
Qed.

End Driver.

Lemma C9_fleet_driver_witness :
  snd (main_cz_toss_3 nat Sample.gcc_fails 0)
  = {| machine := 4;
       attempts := ["%clang@3.9.0"; "%gcc@4.9.3"; "%intel@16.0.4"; "%intel@17.0.0"];
       results := [("%clang@3.9.0", true); ("%gcc@4.9.3", false);
                   ("%intel@16.0.4", true); ("%intel@17.0.0", true)] |}
  /\ fst (main_cz_toss_3 nat Sample.gcc_fails 0) <> 0%Z.
Proof.
  destruct (C9_fleet_driver nat Sample.gcc_fails
              "/usr/workspace/wsa/axom/thirdparty_libs/builds/"
              ["%clang@3.9.0"; "%gcc@4.9.3"; "%intel@16.0.4"; "%intel@17.0.0"] 0)
    as (_ & _ & _ & _ & _ & H).
  destruct (H "%clang@3.9.0" "%gcc@4.9.3" "%intel@16.0.4" "%intel@17.0.0" eq_refl)
    as [Hrun Hret].
  split.
  - exact Hrun.
  - apply Hret. right; left. vm_compute. discriminate.
Defined.

End UberenvFacts.

(** ** config-build.py: what the directory reset touches *)

Module ResetFacts.
Import PyStr PosixPath PyStrFacts ConfigBuild RunVocabulary RunFacts.
Local Open Scope py_scope.
Local Open Scope list_scope.

Lemma fold_mkdir_other (l : list string) (m : gmap string Kind) (k : string) :
  ~ In k l -> fold_left mkdir_missing l m !! k = m !! k.
Proof.
  revert m; induction l as [|d l IH]; intros m Hk; [reflexivity |].
  cbn [fold_left]. rewrite IH by (intros H; apply Hk; now right).
  unfold mkdir_missing. destruct (m !! d); [reflexivity |].
  apply lookup_insert_ne. intros ->. apply Hk. now left.
Qed.

Lemma ancestors_from_length (pre s d : string) :
  In d (ancestors_from pre s) -> String.length d <= String.length pre + String.length s.
Proof.
  revert pre; induction s as [|c s IH]; intros pre; cbn [ancestors_from].
  - intros [<- | []]. lia.
  - intros H. apply in_app_or in H as [H | H].
    + destruct (Ascii.eqb c sep && negb (String.eqb pre "")); [| destruct H].
      destruct H as [<- | []]. lia.
    + apply IH in H. rewrite length_append in H. simpl in *. lia.
Qed.

Lemma below_longer (r k : string) : below r k -> String.length r < String.length k.
Proof.
  unfold below, startswith. intros H. apply prefix_split in H as [rest ->].
  rewrite !length_append. simpl. lia.
Qed.

Lemma below_not_ancestor (r k : string) : below r k -> ~ In k (ancestors r).
Proof.
  intros Hb Hin. apply below_longer in Hb.
  apply ancestors_from_length in Hin. simpl in Hin. lia.
Qed.

Lemma prefix_app_l (a b k : string) :
  String.prefix (a +:+ b) k = true -> String.prefix a k = true.
Proof.
  intros H. apply prefix_split in H as [rest ->].
  rewrite append_assoc. apply prefix_append.
Qed.

Lemma below_under (r k : string) : below r k -> under r k = true.
Proof.
  unfold below, under, startswith. intros H. apply orb_true_iff. right.
  destruct (endswith r "/"); [now apply prefix_app_l in H | exact H].
Qed.

(** [os.makedirs] keeps what is there *)
Lemma makedirs_keeps (path : string) (w w' : World) (res : Result unit)
    (k : string) (v : Kind) :
  os_makedirs path w = (res, w') -> fs w !! k = Some v -> fs w' !! k = Some v.
Proof.
  unfold os_makedirs.
  destruct (fs w !! abspath (cwd w) path); [now intros [= <- <-] |].
  destruct (find _ _); [now intros [= <- <-] |].
  intros [= <- <-] H. cbn [emit fs]. now apply fold_mkdir_keeps.
Qed.

(** [os.makedirs] adds nothing below the directory it makes *)
Lemma makedirs_below (path : string) (w w' : World) (res : Result unit) (k : string) :
  os_makedirs path w = (res, w') -> below (abspath (cwd w) path) k ->
  fs w' !! k = fs w !! k.
Proof.
  unfold os_makedirs.
  destruct (fs w !! abspath (cwd w) path); [now intros [= <- <-] |].
  destruct (find _ _); [now intros [= <- <-] |].
  intros [= <- <-] H. cbn [emit fs]. apply fold_mkdir_other.
  now apply below_not_ancestor.
Qed.

(** [shutil.rmtree] keeps what is not under its path *)
Lemma rmtree_keeps (path : string) (w w' : World) (res : Result unit)
    (k : string) (v : Kind) :
  shutil_rmtree path w = (res, w') -> fs w !! k = Some v ->
  under (abspath (cwd w) path) k = false -> fs w' !! k = Some v.
Proof.
  unfold shutil_rmtree.
  destruct (fs w !! abspath (cwd w) path) as [[] |]; try now intros [= <- <-].
  intros [= <- <-] H Hu. cbn [emit fs].
  apply map_lookup_filter_Some. split; [assumption | exact Hu].
Qed.

(** a successful [shutil.rmtree] leaves nothing under its path *)
Lemma rmtree_clears (path : string) (w w' : World) (k : string) :
  shutil_rmtree path w = (Ok tt, w') ->
  under (abspath (cwd w) path) k = true -> fs w' !! k = None.
Proof.
  unfold shutil_rmtree.
  destruct (fs w !! abspath (cwd w) path) as [[] |]; try discriminate.
  intros [= <-] Hu. cbn [emit fs].
  apply map_lookup_filter_None. right. intros v _. cbn [fst]. congruence.
Qed.

(** the statements of a reset block, whatever they print *)
Lemma reset_keeps (note1 note2 : string -> string) (path : string) (w w' : World)
    (res : Result unit) (k : string) (v : Kind) :
  (let* present := os_path_exists path in
   (if present then print (note1 path) ;; shutil_rmtree path else ret tt) ;;
   print (note2 path) ;;
   os_makedirs path) w = (res, w') ->
  fs w !! k = Some v -> under (abspath (cwd w) path) k = false ->
  fs w' !! k = Some v /\ cwd w' = cwd w.
Proof.
  unfold bind at 1, os_path_exists.
  destruct (path_exists w path).
  - unfold bind at 1 2, print.
    destruct (shutil_rmtree path (emit _ w)) as [[[] | e] w1] eqn:R.
    + intros H Hk Hu. pose proof (rmtree_keeps _ _ _ _ _ _ R Hk Hu) as Hk1.
      apply rmtree_ok in R as [Rc _]. cbn [emit cwd] in Rc.
      unfold bind in H.
      split; [exact (makedirs_keeps _ _ _ _ _ _ H Hk1) |].
      unfold os_makedirs in H. cbn [emit fs cwd] in H.
      destruct (fs w1 !! _) in H; [injection H as _ <-; exact Rc |].
      destruct (find _ _) in H; injection H as _ <-; exact Rc.
    + intros [= <- <-] Hk Hu.
      split; [exact (rmtree_keeps _ _ _ _ _ _ R Hk Hu) |].
      unfold shutil_rmtree in R. cbn [emit fs cwd] in R.
      destruct (fs w !! _) as [[] |] in R; injection R as _ <-; reflexivity.
  - unfold bind, ret, print. intros H Hk _.
    split; [exact (makedirs_keeps _ _ _ _ _ _ H Hk) |].
    unfold os_makedirs in H. cbn [emit fs cwd] in H.
    destruct (fs w !! _) in H; [injection H as _ <-; reflexivity |].
    destruct (find _ _) in H; injection H as _ <-; reflexivity.
Qed.

Lemma reset_clears (note1 note2 : string -> string) (path : string) (w w' : World)
    (k : string) :
  (let* present := os_path_exists path in
   (if present then print (note1 path) ;; shutil_rmtree path else ret tt) ;;
   print (note2 path) ;;
   os_makedirs path) w = (Ok tt, w') ->
  is_Some (lookup_path w path) -> below (abspath (cwd w) path) k ->
  fs w' !! k = None.
Proof.
  unfold bind at 1, os_path_exists. intros H Hp Hb.
  destruct (path_exists w path).
  - unfold bind at 1 2, print in H.
    destruct (shutil_rmtree path (emit _ w)) as [[[] | e] w1] eqn:R; [| discriminate].
    pose proof (rmtree_clears _ _ _ k R) as Hk1. cbn [emit cwd] in Hk1.
    specialize (Hk1 (below_under _ _ Hb)).
    apply rmtree_ok in R as [Rc _]. cbn [emit cwd] in Rc.
    unfold bind in H.
    rewrite (makedirs_below _ _ _ _ k H); [exact Hk1 |].
    cbn [emit cwd]. now rewrite Rc.
  - (* the entry is there although [os.path.exists] said no: [os.makedirs] raises *)
    unfold bind, ret, print, os_makedirs in H. cbn [emit fs cwd] in H.
    destruct Hp as [v Hv]. unfold lookup_path in Hv. rewrite Hv in H. discriminate H.
Qed.

Lemma ancestors_from_app (pre s rest : string) :
  pre +:+ s <> "" -> In (pre +:+ s) (ancestors_from pre (s +:+ String sep rest)).
Proof.
  revert pre; induction s as [|c s IH]; intros pre Hne.
  - rewrite append_nil_r in *. change ("" +:+ String sep rest) with (String sep rest).
    cbn [ancestors_from]. change (Ascii.eqb sep sep) with true.
    destruct (String.eqb_spec pre ""); [contradiction | now left].
  - change (String c s +:+ String sep rest) with (String c (s +:+ String sep rest)).
    cbn [ancestors_from]. apply in_or_app. right.
    specialize (IH (pre +:+ String c "")). rewrite append_assoc in IH.
    apply IH. exact Hne.
Qed.

Lemma below_ancestor (r k : string) : r <> "" -> below r k -> In r (ancestors k).
Proof.
  unfold below, startswith. intros Hr H. apply prefix_split in H as [rest ->].
  rewrite append_assoc. apply (ancestors_from_app "" r rest). exact Hr.
Qed.

Lemma normpath_nonempty (path : string) : normpath path <> "".
Proof.
  unfold normpath. destruct (String.eqb path ""); [discriminate |]. cbv zeta.
  match goal with |- (if String.eqb ?x "" then _ else _) <> _ =>
    destruct (String.eqb_spec x ""); [discriminate | assumption] end.
Qed.

Lemma abspath_nonempty (cwd path : string) : abspath cwd path <> "".
Proof. apply normpath_nonempty. Qed.

(** in a well-formed tree nothing lies below a path that is absent *)
Lemma well_formed_absent (m : gmap string Kind) (r k : string) :
  well_formed m -> r <> "" -> m !! r = None -> below r k -> m !! k = None.
Proof.
  intros Hwf Hr Habs Hb. destruct (m !! k) eqn:E; [| reflexivity].
  destruct (Hwf k r (ex_intro _ _ E) (below_ancestor r k Hr Hb)) as [H | ->].
  - congruence.
  - apply below_longer in Hb. lia.
Qed.

(** X1. The reset of the build directory and of the install directory
    never remove or change an entry that is not under the path they are
    given, whether they succeed or raise. *)
Theorem X1_reset_keeps_outside (path : string) (w w' : World) (res : Result unit)
    (k : string) (v : Kind) :
  reset_buildpath path w = (res, w') \/ reset_installpath path w = (res, w') ->
  fs w !! k = Some v ->
  under (abspath (cwd w) path) k = false ->
  fs w' !! k = Some v.
Proof.
  intros [H | H] Hk Hu.
  - exact (proj1 (reset_keeps
             (fun path => "Build directory '" +:+ path +:+ "' already exists.  Deleting...")
             (fun path => "Creating build directory '" +:+ path +:+ "'...")
             path w w' res k v H Hk Hu)).
  - exact (proj1 (reset_keeps
             (fun path => "Install directory '" +:+ path +:+ "' already exists, deleting...")
             (fun path => "Creating install path '" +:+ path +:+ "'...")
             path w w' res k v H Hk Hu)).
Qed.

Lemma X1_reset_keeps_outside_witness :
  fs (snd (reset_buildpath "/work/axom/build-foo-gnu-debug" Sample.built))
    !! "/work/axom/host-configs/other/foo.cmake" = Some File.
Proof.
  apply (X1_reset_keeps_outside "/work/axom/build-foo-gnu-debug" Sample.built _
           (fst (reset_buildpath "/work/axom/build-foo-gnu-debug" Sample.built))).
  - left. apply surjective_pairing.
  - vm_compute. reflexivity.
  - vm_compute. reflexivity.
Defined.

(** X2. After a successful reset the directory is there and empty:
    when the path existed before, or the tree was well formed, no entry
    lies below it afterwards (what was in a build or install directory
    of an earlier run is gone). *)
Theorem X2_reset_leaves_empty_directory (path : string) (w w' : World) (k : string) :
  reset_buildpath path w = (Ok tt, w') \/ reset_installpath path w = (Ok tt, w') ->
  is_Some (lookup_path w path) \/ well_formed (fs w) ->
  below (abspath (cwd w) path) k ->
  lookup_path w' path = Some Dir /\ fs w' !! k = None.
Proof.
  intros H Hpre Hb.
  assert (exists note1 note2,
            (let* present := os_path_exists path in
             (if present then print (note1 path) ;; shutil_rmtree path else ret tt) ;;
             print (note2 path) ;;
             os_makedirs path) w = (Ok tt, w')) as (note1 & note2 & R).
  { destruct H as [H | H]; eexists (fun path => _), (fun path => _); exact H. }
  split; [exact (proj1 (reset_ok note1 note2 path w w' R)) |].
  destruct (lookup_path w path) as [v |] eqn:E.
  - apply (reset_clears note1 note2 path w w' k R); [now rewrite E | exact Hb].
  - destruct Hpre as [[v Hv] | Hwf]; [discriminate |].
    revert R. unfold bind at 1, os_path_exists.
    rewrite (path_exists_absent w path E).
    unfold bind, ret, print. intros R.
    rewrite (makedirs_below _ _ _ _ k R) by exact Hb.
    cbn [emit fs]. apply (well_formed_absent _ (abspath (cwd w) path));
      [assumption | apply abspath_nonempty | exact E | exact Hb].
Qed.

Lemma X2_reset_leaves_empty_directory_witness :
  fs Sample.built !! "/work/axom/build-foo-gnu-debug/CMakeCache.txt" = Some File
  /\ lookup_path (snd (reset_buildpath "/work/axom/build-foo-gnu-debug" Sample.built))
       "/work/axom/build-foo-gnu-debug" = Some Dir
  /\ fs (snd (reset_buildpath "/work/axom/build-foo-gnu-debug" Sample.built))
       !! "/work/axom/build-foo-gnu-debug/CMakeCache.txt" = None.
Proof.
  split; [vm_compute; reflexivity |].
  apply (X2_reset_leaves_empty_directory "/work/axom/build-foo-gnu-debug" Sample.built).
  - left. vm_compute. reflexivity.
  - left. vm_compute. eexists. reflexivity.
  - vm_compute. reflexivity.
Defined.

End ResetFacts.

(** ** config-build.py: the order of effects in a run *)

Module TraceFacts.
Import PyStr PosixPath PyStrFacts ConfigBuild RunVocabulary RunFacts ResetFacts.
Local Open Scope py_scope.
Local Open Scope list_scope.

Lemma quiet_ret {A : Type} (x : A) : quiet (ret x).
Proof. intros w. exists []. now rewrite app_nil_r. Qed.

Lemma quiet_raise {A : Type} (e : Exn) : quiet (@raise A e).
Proof. intros w. exists []. now rewrite app_nil_r. Qed.

Lemma quiet_bind {A B : Type} (m : M A) (k : A -> M B) :
  quiet m -> (forall x, quiet (k x)) -> quiet (bind m k).
Proof.
  intros Hm Hk w. unfold bind. destruct (Hm w) as (e1 & E1 & F1).
  destruct (m w) as [[x | e] w1]; cbn [snd] in E1.
  - destruct (Hk x w1) as (e2 & E2 & F2). exists (e1 ++ e2).
    rewrite E2, E1, app_assoc, List.filter_app, F1, F2. now split.
  - exists e1. now split.
Qed.

Lemma quiet_print (line : string) : quiet (print line).
Proof. intros w. exists [Stdout line]. now split. Qed.

Lemma quiet_assert (b : bool) (msg : string) : quiet (py_assert b msg).
Proof. destruct b; [apply quiet_ret | apply quiet_raise]. Qed.

Lemma quiet_abspath (path : string) : quiet (os_path_abspath path).
Proof. intros w. exists []. now rewrite app_nil_r. Qed.

Lemma quiet_exists (path : string) : quiet (os_path_exists path).
Proof. intros w. exists []. now rewrite app_nil_r. Qed.

Lemma quiet_rmtree (path : string) : quiet (shutil_rmtree path).
Proof.
  intros w. unfold shutil_rmtree.
  destruct (fs w !! abspath (cwd w) path) as [[] |].
  - exists []. now rewrite app_nil_r.
  - eexists [_]. now split.
  - exists []. now rewrite app_nil_r.
Qed.

Lemma quiet_makedirs (path : string) : quiet (os_makedirs path).
Proof.
  intros w. unfold os_makedirs.
  destruct (fs w !! abspath (cwd w) path).
  - exists []. now rewrite app_nil_r.
  - destruct (find _ _).
    + exists []. now rewrite app_nil_r.
    + eexists [_]. now split.
Qed.

Lemma quiet_chdir (path : string) : quiet (os_chdir path).
Proof.
  intros w. unfold os_chdir.
  destruct (fs w !! abspath (cwd w) path) as [[] |].
  - exists []. now rewrite app_nil_r.
  - eexists [_]. now split.
  - exists []. now rewrite app_nil_r.
Qed.

Lemma quiet_locator (a : args.t) (p : Proc) (scriptsdir : string) :
  quiet (find_cmake_cache_file a p scriptsdir).
Proof.
  unfold find_cmake_cache_file.
  destruct (negb (String.eqb (args.hostconfig a) "")), (environ p !! "SYS_TYPE");
  repeat first
    [ apply quiet_ret | apply quiet_raise | apply quiet_print | apply quiet_assert
    | apply quiet_abspath | apply quiet_exists | apply quiet_rmtree
    | apply quiet_makedirs | apply quiet_chdir
    | apply quiet_bind; [| intros ?]
    | match goal with |- quiet (if ?b then _ else _) => destruct b end ].
Qed.

Lemma quiet_setup_build_dir (a : args.t) (platform_info : string) :
  quiet (setup_build_dir a platform_info).
Proof.
  unfold setup_build_dir, compute_buildpath, reset_buildpath.
  repeat first
    [ apply quiet_ret | apply quiet_raise | apply quiet_print | apply quiet_assert
    | apply quiet_abspath | apply quiet_exists | apply quiet_rmtree
    | apply quiet_makedirs | apply quiet_chdir
    | apply quiet_bind; [| intros ?]
    | match goal with |- quiet (if ?b then _ else _) => destruct b end ].
Qed.

Lemma quiet_setup_install_dir (a : args.t) (platform_info : string) :
  quiet (setup_install_dir a platform_info).
Proof.
  unfold setup_install_dir, compute_installpath, reset_installpath.
  repeat first
    [ apply quiet_ret | apply quiet_raise | apply quiet_print | apply quiet_assert
    | apply quiet_abspath | apply quiet_exists | apply quiet_rmtree
    | apply quiet_makedirs | apply quiet_chdir
    | apply quiet_bind; [| intros ?]
    | match goal with |- quiet (if ?b then _ else _) => destruct b end ].
Qed.

Lemma quiet_configure (a : args.t) (p : Proc) : quiet (configure a p).
Proof.
  unfold configure.
  apply quiet_bind; [apply quiet_abspath | intros script].
  apply quiet_bind; [apply quiet_locator | intros [cachefile platform_info]].
  do 4 (apply quiet_bind; [apply quiet_print | intros ?]).
  apply quiet_bind; [apply quiet_exists | intros found].
  apply quiet_bind; [apply quiet_assert | intros ?].
  apply quiet_bind; [apply quiet_setup_build_dir | intros buildpath].
  apply quiet_bind; [apply quiet_setup_install_dir | intros installpath].
  apply quiet_ret.
Qed.

(** the Run CMake block either raises at [os.chdir], before the tool is
    started, or starts it as its last effect *)
Lemma run_cmake_cases (p : Proc) (buildpath cmakeline : string) (w : World) :
  (exists e,
      run_cmake p buildpath cmakeline w
      = (Raise e, emit (Stdout "Changing to build directory...") w)
      /\ lookup_path w buildpath <> Some Dir)
  \/ (exists w' before status,
        run_cmake p buildpath cmakeline w = (Ok tt, w')
        /\ lookup_path w buildpath = Some Dir
        /\ log w' = log w ++ before ++ [Call cmakeline (abspath (cwd w) buildpath) status]
        /\ List.filter is_call before = []).
Proof.
  unfold run_cmake, bind, print, os_chdir, subprocess_call, lookup_path.
  cbn [emit fs cwd log].
  destruct (fs w !! abspath (cwd w) buildpath) as [[] |] eqn:E.
  - left. eexists. split; [reflexivity | discriminate].
  - right. cbn [emit fs cwd log].
    destruct (shell p cmakeline (abspath (cwd w) buildpath) (fs w)) as [status fs'].
    eexists _, [_; _; _; _], status. split; [reflexivity |].
    split; [reflexivity |]. cbn [emit fs cwd log].
    rewrite <- !app_assoc. split; reflexivity.
  - left. eexists. split; [reflexivity | discriminate].
Qed.

(** X3. In every run the build tool is started at most once, and only
    as the very last effect of a run that ends normally: a run that
    raises (missing cache file, a failing delete or create, a build
    directory that cannot be entered) has started no process. *)
Theorem X3_tool_started_last_or_never (a : args.t) (p : Proc) (w : World) :
  exists evs,
    log (snd (config_build a p w)) = log w ++ evs
    /\ match fst (config_build a p w) with
       | Raise _ => List.filter is_call evs = []
       | Ok _ =>
           exists before cmdline dir status,
             evs = before ++ [Call cmdline dir status]
             /\ List.filter is_call before = []
       end.
Proof.
  unfold config_build, bind.
  destruct (quiet_configure a p w) as (e1 & E1 & F1).
  destruct (configure a p w) as [[[buildpath cmakeline] | e] w1]; cbn [snd] in E1.
  - destruct (run_cmake_cases p buildpath cmakeline w1)
      as [(e & -> & _) | (w' & before & status & -> & _ & L & F)]; cbn [fst snd].
    + exists (e1 ++ [Stdout "Changing to build directory..."]).
      cbn [emit log]. rewrite E1, <- app_assoc. split; [reflexivity |].
      rewrite List.filter_app, F1. reflexivity.
    + exists (e1 ++ before ++ [Call cmakeline (abspath (cwd w1) buildpath) status]).
      rewrite L, E1, <- app_assoc. split; [reflexivity |].
      exists (e1 ++ before), cmakeline, (abspath (cwd w1) buildpath), status.
      rewrite <- app_assoc, List.filter_app, F1, F. now split.
  - exists e1. cbn [fst snd]. now split.
Qed.

(** *** What a successful configuration has done *)


Lemma setup_install_dir_keeps (a : args.t) (platform_info installpath : string)
    (w w' : World) (k : string) (v : Kind) :
  setup_install_dir a platform_info w = (Ok installpath, w') ->
  fs w !! k = Some v -> under (abspath (cwd w) installpath) k = false ->
  fs w' !! k = Some v.
Proof.
  unfold setup_install_dir.
  destruct (compute_installpath_total a platform_info w) as [ip E].
  rewrite (bind_ok _ _ _ _ _ E). unfold bind at 1.
  destruct (reset_installpath ip w) as [[[] | e] w1] eqn:R; [| discriminate].
  intros [= <- <-] Hk Hu.
  exact (proj1 (reset_keeps
                  (fun path => "Install directory '" +:+ path +:+ "' already exists, deleting...")
                  (fun path => "Creating install path '" +:+ path +:+ "'...")
                  ip w w1 _ k v R Hk Hu)).
Qed.

(** the steps of a configuration that succeeded *)
Lemma configure_inv (a : args.t) (p : Proc) (w w1 : World) (buildpath cmakeline : string) :
  configure a p w = (Ok (buildpath, cmakeline), w1) ->
  exists cachefile platform_info installpath w0 wB,
    fst (find_cmake_cache_file a p (dirname (abspath (cwd w) (argv0 p))) w)
    = Ok (cachefile, platform_info)
    /\ path_exists w cachefile = true
    /\ fs w0 = fs w /\ cwd w0 = cwd w
    /\ setup_build_dir a platform_info w0 = (Ok buildpath, wB)
    /\ setup_install_dir a platform_info wB = (Ok installpath, w1)
    /\ cmakeline = build_cmake_line a cachefile installpath
                     (dirname (abspath (cwd w) (argv0 p))).
Proof.
  intros H. unfold configure in H.
  rewrite (bind_ok (os_path_abspath (argv0 p)) _ w w _ eq_refl) in H.
  destruct (locator_total a p (dirname (abspath (cwd w) (argv0 p))) w)
    as (cf & pi & msg & E).
  rewrite (bind_ok _ _ _ _ _ E) in H.
  unfold bind, print, os_path_exists in H.
  rewrite !path_exists_emit in H.
  destruct (path_exists w cf) eqn:Ex; [| discriminate H].
  cbn [py_assert ret] in H.
  match type of H with
  | context [setup_build_dir a pi ?w0] =>
      destruct (setup_build_dir a pi w0) as [[bp | e] wB] eqn:EB; [| discriminate H];
      destruct (setup_install_dir a pi wB) as [[ip | e] wI] eqn:EI; [| discriminate H];
      injection H as <- <- <-;
      exists cf, pi, ip, w0, wB
  end.
  rewrite E. repeat split; assumption.
Qed.




(** *** An install directory above the build directory *)

Lemma fold_mkdir_all (l : list string) (m : gmap string Kind) (d : string) :
  In d l -> is_Some (fold_left mkdir_missing l m !! d).
Proof.
  revert m; induction l as [|x l IH]; intros m Hin; [destruct Hin |].
  cbn [fold_left]. destruct (decide (x = d)) as [-> | Hne].
  - unfold mkdir_missing at 2. destruct (m !! d) eqn:E.
    + eexists. apply fold_mkdir_keeps. exact E.
    + eexists. apply fold_mkdir_keeps. apply lookup_insert_eq.
  - destruct Hin as [-> | Hin]; [contradiction | now apply IH].
Qed.

(** a successful [os.makedirs] leaves every directory above its path in
    the tree *)
Lemma makedirs_ancestors (path : string) (w w' : World) (d : string) :
  os_makedirs path w = (Ok tt, w') ->
  In d (ancestors (abspath (cwd w) path)) -> is_Some (fs w' !! d).
Proof.
  unfold os_makedirs.
  destruct (fs w !! abspath (cwd w) path); [discriminate |].
  destruct (find _ _); [discriminate |].
  intros [= <-] Hin. cbn [emit fs]. now apply fold_mkdir_all.
Qed.

Lemma reset_ancestors (note1 note2 : string -> string) (path : string) (w w' : World)
    (d : string) :
  (let* present := os_path_exists path in
   (if present then print (note1 path) ;; shutil_rmtree path else ret tt) ;;
   print (note2 path) ;;
   os_makedirs path) w = (Ok tt, w') ->
  In d (ancestors (abspath (cwd w) path)) -> is_Some (fs w' !! d).
Proof.
  unfold bind at 1, os_path_exists.
  destruct (path_exists w path).
  - unfold bind at 1 2, print.
    destruct (shutil_rmtree path (emit _ w)) as [[[] | e] w1] eqn:R; [| discriminate].
    apply rmtree_ok in R as [Rc _]. cbn [emit cwd] in Rc.
    unfold bind. intros H Hin. apply (makedirs_ancestors _ _ _ d H).
    cbn [emit cwd]. now rewrite Rc.
  - unfold bind, ret, print. intros H Hin. exact (makedirs_ancestors _ _ _ d H Hin).
Qed.

(** X5. When InstallPath lies above BuildPath (as with --installpath out
    --buildpath out/build), the reset of the install directory deletes
    the build directory the script has just made and does not make it
    again: afterwards BuildPath does not exist, and the Run CMake block
    raises at [os.chdir] without starting the tool. *)
Theorem X5_install_above_build (a : args.t) (platform_info buildpath installpath : string)
    (w wB w1 : World) :
  setup_build_dir a platform_info w = (Ok buildpath, wB) ->
  setup_install_dir a platform_info wB = (Ok installpath, w1) ->
  below (abspath (cwd w) installpath) (abspath (cwd w) buildpath) ->
  lookup_path w1 buildpath = None
  /\ forall p cmakeline,
      exists e,
        run_cmake p buildpath cmakeline w1
        = (Raise e, emit (Stdout "Changing to build directory...") w1).
Proof.
  intros HB HI Hb.
  destruct (setup_build_dir_ok _ _ _ _ _ HB) as (_ & HcB & _).
  destruct (setup_install_dir_ok _ _ _ _ _ HI) as (_ & HcI & _).
  assert (is_Some (lookup_path wB installpath)) as Hip.
  { revert HB. unfold setup_build_dir.
    destruct (compute_buildpath_total a platform_info w) as [bp E].
    rewrite (bind_ok _ _ _ _ _ E). unfold bind at 1.
    destruct (reset_buildpath bp w) as [[[] | e] w2] eqn:R; [| discriminate].
    intros [= -> ->]. unfold lookup_path. rewrite HcB.
    apply (reset_ancestors
             (fun path => "Build directory '" +:+ path +:+ "' already exists.  Deleting...")
             (fun path => "Creating build directory '" +:+ path +:+ "'...")
             buildpath w wB _ R).
    apply below_ancestor; [apply abspath_nonempty | exact Hb]. }
  assert (lookup_path w1 buildpath = None) as Hgone.
  { revert HI. unfold setup_install_dir.
    destruct (compute_installpath_total a platform_info wB) as [ip E].
    rewrite (bind_ok _ _ _ _ _ E). unfold bind at 1.
    destruct (reset_installpath ip wB) as [[[] | e] w2] eqn:R; [| discriminate].
    intros [= -> ->]. unfold lookup_path. rewrite HcI.
    apply (reset_clears
             (fun path => "Install directory '" +:+ path +:+ "' already exists, deleting...")
             (fun path => "Creating install path '" +:+ path +:+ "'...")
             installpath wB w1 _ R Hip). now rewrite HcB. }
  split; [exact Hgone |].
  intros p cmakeline.
  destruct (run_cmake_cases p buildpath cmakeline w1)
    as [(e & R & _) | (w' & before & status & _ & Hdir & _)].
  - now exists e.
  - congruence.
Qed.

Lemma X5_install_above_build_witness :
  lookup_path
    (snd (setup_install_dir Sample.nested "foo"
            (snd (setup_build_dir Sample.nested "foo" Sample.start))))
    "/work/axom/out/build" = None
  /\ fst (config_build Sample.nested Sample.foo Sample.start)
     = Raise (OSError ENOENT "/work/axom/out/build").
Proof.
  split; [| vm_compute; reflexivity].
  apply (X5_install_above_build Sample.nested "foo" "/work/axom/out/build"
           "/work/axom/out" Sample.start
           (snd (setup_build_dir Sample.nested "foo" Sample.start))).
  - vm_compute. reflexivity.
  - vm_compute. reflexivity.
  - vm_compute. reflexivity.
Defined.

End TraceFacts.

(** ** Normalised paths *)

Module NormFacts.
Import PyStr PosixPath PyStrFacts PathFacts PathVocabulary.
#[local] Arguments String.append !_ _ / : simpl nomatch.
Local Open Scope list_scope.

Lemma has_char_append (c : ascii) (a b : string) :
  has_char c (a +:+ b) = has_char c a || has_char c b.
Proof.
  induction a as [|x a IH]; simpl; [reflexivity |].
  now rewrite IH, orb_assoc.
Qed.

(** [normpath], written with the vocabulary *)
Lemma normpath_unfold (path : string) :
  path <> "" ->
  normpath path
  = if String.eqb
         (slashes (initial_slashes path)
            +:+ PyStr.join "/"
                  (fold_left (norm_step (initial_slashes path)) (PyStr.split sep path) []))
         ""
    then "."
    else slashes (initial_slashes path)
           +:+ PyStr.join "/"
                 (fold_left (norm_step (initial_slashes path)) (PyStr.split sep path) []).
Proof.
  intros H. unfold normpath, initial_slashes.
  rewrite (proj2 (String.eqb_neq path "") H). cbv zeta.
  destruct (startswith path "/"); [| reflexivity].
  destruct (startswith path "//" && negb (startswith path "///")); reflexivity.
Qed.

Lemma initial_slashes_absolute (path : string) :
  startswith path "/" = true -> initial_slashes path = 1 \/ initial_slashes path = 2.
Proof.
  unfold initial_slashes. intros ->.
  destruct (startswith path "//" && negb (startswith path "///")); auto.
Qed.

Lemma split_components (s : string) :
  Forall (fun c => has_char sep c = false) (PyStr.split sep s).
Proof.
  induction s as [|x s IH]; cbn [PyStr.split].
  - now constructor.
  - destruct (Ascii.eqb x sep) eqn:E.
    + now constructor.
    + destruct (PyStr.split sep s) as [|h t]; inversion IH; subst.
      * constructor; [| constructor]. simpl. now rewrite E.
      * constructor; [| assumption]. simpl. now rewrite E.
Qed.

Lemma simple_last (l : list string) :
  Forall simple_name l -> l <> [] -> String.eqb (List.last l "") ".." = false.
Proof.
  intros H Hne. apply String.eqb_neq.
  assert (In (List.last l "") l) as Hin.
  { destruct l as [|x l]; [congruence |].
    clear. revert x; induction l as [|y l IH]; intros x; [now left |].
    right. apply (IH y). }
  rewrite List.Forall_forall in H. apply H in Hin. apply Hin.
Qed.

Lemma Forall_removelast {A : Type} (P : A -> Prop) (l : list A) :
  Forall P l -> Forall P (List.removelast l).
Proof.
  induction 1 as [|x l Hx Hl IH]; [constructor |].
  cbn [removelast]. destruct l; [constructor |]. now constructor.
Qed.

(** below an absolute root the component loop keeps only plain names *)
Lemma norm_step_simple_acc (k : nat) (acc : list string) (comp : string) :
  k <> 0 -> has_char sep comp = false -> Forall simple_name acc ->
  Forall simple_name (norm_step k acc comp).
Proof.
  intros Hk Hc Hacc. unfold norm_step.
  destruct (String.eqb_spec comp ""); [assumption |].
  destruct (String.eqb_spec comp "."); [assumption |]. cbn [orb].
  destruct (String.eqb_spec comp "..") as [-> | Hdd]; cbn [negb orb].
  - replace (k =? 0)%nat with false by (symmetry; now apply Nat.eqb_neq).
    cbn [andb orb].
    destruct acc as [|x acc]; [assumption |].
    rewrite bool_decide_eq_false_2 by discriminate. cbn [negb andb].
    rewrite simple_last by (assumption || discriminate).
    now apply Forall_removelast.
  - apply Forall_app. split; [assumption |].
    constructor; [| constructor]. repeat split; assumption.
Qed.

Lemma fold_norm_simple_acc (k : nat) (comps acc : list string) :
  k <> 0 -> Forall (fun c => has_char sep c = false) comps ->
  Forall simple_name acc ->
  Forall simple_name (fold_left (norm_step k) comps acc).
Proof.
  intros Hk Hc. revert acc; induction Hc as [|c comps Hc _ IH]; intros acc Hacc;
    [assumption |].
  cbn [fold_left]. apply IH. now apply norm_step_simple_acc.
Qed.

Lemma fold_norm_simple (k : nat) (l acc : list string) :
  Forall simple_name l -> fold_left (norm_step k) l acc = acc ++ l.
Proof.
  intros H. revert acc; induction H as [|x l Hx _ IH]; intros acc.
  - now rewrite app_nil_r.
  - cbn [fold_left]. rewrite norm_step_simple by assumption.
    rewrite IH, <- app_assoc. reflexivity.
Qed.

Lemma split_app_sep (x rest : string) :
  has_char sep x = false ->
  PyStr.split sep (x +:+ String sep rest) = x :: PyStr.split sep rest.
Proof.
  induction x as [|c x IH]; simpl; [reflexivity |].
  intros H. apply orb_false_iff in H as [Hc Hx].
  now rewrite Hc, (IH Hx).
Qed.

Lemma split_join (l : list string) :
  l <> [] -> Forall simple_name l -> PyStr.split sep (PyStr.join "/" l) = l.
Proof.
  intros Hne H. induction H as [|x l Hx Hl IH]; [congruence |].
  destruct l as [|y l].
  - cbn [PyStr.join]. apply split_no_sep, Hx.
  - rewrite join_cons by discriminate.
    change ("/" +:+ PyStr.join "/" (y :: l)) with (String sep (PyStr.join "/" (y :: l))).
    rewrite split_app_sep by apply Hx. f_equal. now apply IH.
Qed.

Lemma simple_head (x : string) :
  simple_name x -> exists c rest, x = String c rest /\ c <> sep.
Proof.
  intros (Hs & H0 & _). destruct x as [|c rest]; [congruence |].
  exists c, rest. split; [reflexivity |].
  simpl in Hs. apply orb_false_iff in Hs as [Hc _].
  now apply Ascii.eqb_neq in Hc.
Qed.

Lemma join_head (l : list string) :
  Forall simple_name l -> l <> [] ->
  exists c rest, PyStr.join "/" l = String c rest /\ c <> sep.
Proof.
  intros H Hne. destruct H as [|x l Hx Hl]; [congruence |].
  destruct (simple_head x Hx) as (c & rest & -> & Hc).
  destruct l.
  - now exists c, rest.
  - rewrite join_cons by discriminate. eexists c, _. split; [reflexivity | assumption].
Qed.

(** a normal form: one or two slashes, then plain names between single
    slashes; [normpath] leaves it as it is *)
Lemma normpath_normal (k : nat) (l : list string) :
  k = 1 \/ k = 2 -> Forall simple_name l ->
  normpath (slashes k +:+ PyStr.join "/" l) = slashes k +:+ PyStr.join "/" l.
Proof.
  intros Hk Hl. destruct l as [|x l'] eqn:El.
  - destruct Hk as [-> | ->]; reflexivity.
  - rewrite <- El in *. assert (l <> []) as Hne by (rewrite El; discriminate).
    destruct (join_head l Hl Hne) as (c & rest & Ej & Hc).
    assert (initial_slashes (slashes k +:+ PyStr.join "/" l) = k) as Hi.
    { rewrite Ej. unfold initial_slashes, startswith.
      destruct Hk as [-> | ->]; cbn [slashes String.append];
        rewrite !prefix_cons, ?prefix_nil;
        destruct (ascii_dec "/" "/"); try congruence;
        destruct (ascii_dec "/" c); try (exfalso; apply Hc; now subst); reflexivity. }
    rewrite normpath_unfold by (destruct Hk as [-> | ->]; discriminate).
    rewrite Hi.
    assert (fold_left (norm_step k) (PyStr.split sep (slashes k +:+ PyStr.join "/" l)) []
            = l) as ->.
    { destruct Hk as [-> | ->]; cbn [slashes String.append PyStr.split];
        change (Ascii.eqb "/" sep) with true; cbn [fold_left];
        rewrite split_join by assumption.
      - change (norm_step 1 [] "") with (@nil string).
        now rewrite fold_norm_simple.
      - change (norm_step 2 [] "") with (@nil string).
        now rewrite fold_norm_simple. }
    destruct (String.eqb_spec (slashes k +:+ PyStr.join "/" l) "") as [E | _];
      [| reflexivity].
    destruct Hk as [-> | ->]; discriminate E.
Qed.

(** [normpath] brings an absolute path into normal form *)
Lemma normpath_absolute (path : string) :
  startswith path "/" = true ->
  exists k l, (k = 1 \/ k = 2) /\ Forall simple_name l
              /\ normpath path = slashes k +:+ PyStr.join "/" l.
Proof.
  intros Habs.
  assert (path <> "") as Hne by (intros ->; discriminate Habs).
  pose proof (initial_slashes_absolute path Habs) as Hk.
  exists (initial_slashes path),
    (fold_left (norm_step (initial_slashes path)) (PyStr.split sep path) []).
  split; [assumption |]. split.
  - apply fold_norm_simple_acc; [destruct Hk; lia | apply split_components | constructor].
  - rewrite normpath_unfold by assumption.
    destruct (String.eqb_spec
                (slashes (initial_slashes path)
                   +:+ PyStr.join "/"
                         (fold_left (norm_step (initial_slashes path))
                            (PyStr.split sep path) [])) "") as [E | _]; [| reflexivity].
    destruct Hk as [Hk | Hk]; rewrite Hk in E; discriminate E.
Qed.

Lemma normal_absolute (k : nat) (l : list string) :
  k = 1 \/ k = 2 -> startswith (slashes k +:+ PyStr.join "/" l) "/" = true.
Proof.
  intros [-> | ->]; unfold startswith; cbn [slashes String.append];
    rewrite prefix_cons; (destruct (ascii_dec "/" "/"); [apply prefix_nil | congruence]).
Qed.

Lemma join2_absolute (cwd path : string) :
  startswith cwd "/" = true -> startswith (join2 cwd path) "/" = true.
Proof.
  intros H. unfold join2. destruct (startswith path "/") eqn:E; [exact E |].
  destruct cwd as [|c cwd]; [discriminate |].
  destruct (String.eqb (String c cwd) "" || endswith (String c cwd) "/");
    unfold startswith in *; cbn [String.append]; rewrite prefix_cons in *;
    destruct (ascii_dec "/" c); try discriminate; apply prefix_nil.
Qed.

(** in an absolute working directory [abspath] yields an absolute path in
    normal form, which a second [abspath] leaves as it is *)
Lemma abspath_idempotent (cwd path : string) :
  isabs cwd = true ->
  isabs (abspath cwd path) = true
  /\ abspath cwd (abspath cwd path) = abspath cwd path.
Proof.
  intros Hcwd. unfold isabs in Hcwd.
  assert (exists k l, (k = 1 \/ k = 2) /\ Forall simple_name l
                      /\ abspath cwd path = slashes k +:+ PyStr.join "/" l)
    as (k & l & Hk & Hl & E).
  { unfold abspath at 1. apply normpath_absolute.
    unfold isabs. destruct (startswith path "/") eqn:Ep; [exact Ep |].
    unfold join. cbn [fold_left]. now apply join2_absolute. }
  rewrite E. split; [now apply normal_absolute |].
  unfold abspath, isabs. rewrite normal_absolute by assumption.
  now apply normpath_normal.
Qed.

(** *** Names in the same directory *)

Lemma dir_prefix_dirs (l : list string) : dir_prefix (dirs l).
Proof.
  induction l as [|x l IH]; [now left |].
  right. cbn [dirs]. destruct IH as [-> | [q ->]].
  - exists x. reflexivity.
  - exists (x +:+ "/" +:+ q). now rewrite !append_assoc.
Qed.

Lemma dir_prefix_slashes_k (k : nat) : dir_prefix (slashes k).
Proof.
  destruct k as [|[|k]]; [now left | right; now exists "" | right; now exists "/"].
Qed.

Lemma join_snoc_dirs (l : list string) (name : string) :
  PyStr.join "/" (l ++ [name]) = dirs l +:+ name.
Proof.
  induction l as [|x l IH]; [reflexivity |].
  change ((x :: l) ++ [name]) with (x :: (l ++ [name])).
  rewrite join_cons by (destruct l; discriminate).
  rewrite IH. cbn [dirs]. now rewrite !append_assoc.
Qed.

Lemma normpath_snoc_dirs (x name : string) :
  simple_name name ->
  normpath (x +:+ String sep name)
  = (slashes (initial_slashes (x +:+ String sep name))
       +:+ dirs (fold_left (norm_step (initial_slashes (x +:+ String sep name)))
                   (PyStr.split sep x) []))
      +:+ name.
Proof.
  intros Hn. pose proof Hn as (Hs & H0 & _).
  rewrite normpath_unfold by (destruct x; discriminate).
  rewrite split_snoc by assumption.
  rewrite fold_left_app. cbn [fold_left]. rewrite norm_step_simple by assumption.
  rewrite join_snoc_dirs, <- append_assoc.
  match goal with |- (if String.eqb ?r "" then _ else _) = _ =>
    destruct (String.eqb_spec r "") as [E | _]; [| reflexivity] end.
  apply (f_equal String.length) in E. rewrite length_append in E.
  destruct name; [congruence | simpl in E; lia].
Qed.

Lemma initial_slashes_snoc (x n1 n2 : string) :
  simple_name n1 -> simple_name n2 ->
  initial_slashes (x +:+ String sep n1) = initial_slashes (x +:+ String sep n2).
Proof.
  intros H1 H2.
  destruct (simple_head n1 H1) as (a1 & r1 & -> & Ha1).
  destruct (simple_head n2 H2) as (a2 & r2 & -> & Ha2).
  unfold initial_slashes, startswith, sep in *.
  destruct x as [|c1 [|c2 [|c3 x]]]; cbn [String.append];
    rewrite ?prefix_cons, ?prefix_nil;
    repeat match goal with
           | |- context [ascii_dec ?a ?b] => destruct (ascii_dec a b)
           end;
    rewrite ?prefix_cons, ?prefix_nil;
    repeat match goal with
           | |- context [ascii_dec ?a ?b] => destruct (ascii_dec a b)
           end;
    rewrite ?prefix_cons, ?prefix_nil;
    repeat match goal with
           | |- context [ascii_dec ?a ?b] => destruct (ascii_dec a b)
           end;
    subst; try congruence; reflexivity.
Qed.

Lemma normpath_snoc2 (x n1 n2 : string) :
  simple_name n1 -> simple_name n2 ->
  exists dir, dir_prefix dir
              /\ normpath (x +:+ String sep n1) = dir +:+ n1
              /\ normpath (x +:+ String sep n2) = dir +:+ n2.
Proof.
  intros H1 H2.
  exists (slashes (initial_slashes (x +:+ String sep n1))
            +:+ dirs (fold_left (norm_step (initial_slashes (x +:+ String sep n1)))
                        (PyStr.split sep x) [])).
  split; [| split].
  - apply dir_prefix_slashes; [apply dir_prefix_slashes_k | apply dir_prefix_dirs].
  - now apply normpath_snoc_dirs.
  - rewrite (initial_slashes_snoc x n1 n2 H1 H2). now apply normpath_snoc_dirs.
Qed.

Lemma simple_not_absolute (name : string) :
  simple_name name -> startswith name "/" = false.
Proof.
  intros H. destruct (simple_head name H) as (c & rest & -> & Hc).
  unfold startswith. rewrite prefix_cons.
  destruct (ascii_dec "/" c) as [<- |]; [now contradiction Hc | reflexivity].
Qed.

Lemma startswith_slash_snoc (q n1 n2 : string) :
  startswith (q +:+ String sep n1) "/" = startswith (q +:+ String sep n2) "/".
Proof.
  unfold startswith. destruct q as [|c q]; cbn [String.append];
    rewrite !prefix_cons; destruct (ascii_dec _ _); rewrite ?prefix_nil; reflexivity.
Qed.

(** the absolute paths of two names in one directory lie in one
    directory *)
Lemma abspath_same_dir (cwd dir n1 n2 : string) :
  dir_prefix dir -> simple_name n1 -> simple_name n2 ->
  exists dir', dir_prefix dir'
               /\ abspath cwd (dir +:+ n1) = dir' +:+ n1
               /\ abspath cwd (dir +:+ n2) = dir' +:+ n2.
Proof.
  intros [-> | [q ->]] H1 H2.
  - change ("" +:+ n1) with n1. change ("" +:+ n2) with n2.
    unfold abspath, isabs, join. cbn [fold_left]. unfold join2.
    rewrite !simple_not_absolute by assumption.
    destruct (String.eqb_spec cwd "") as [-> | Hc]; cbn [orb].
    + exists "". change ("" +:+ n1) with n1. change ("" +:+ n2) with n2.
      rewrite !normpath_simple by assumption. repeat split. now left.
    + destruct (endswith cwd "/") eqn:E.
      * destruct (endswith_split _ _ E) as [stem ->].
        rewrite !append_assoc.
        change ("/" +:+ n1) with (String sep n1). change ("/" +:+ n2) with (String sep n2).
        now apply normpath_snoc2.
      * change ("/" +:+ n1) with (String sep n1). change ("/" +:+ n2) with (String sep n2).
        now apply normpath_snoc2.
  - rewrite !append_assoc.
    change ("/" +:+ n1) with (String sep n1). change ("/" +:+ n2) with (String sep n2).
    unfold abspath, isabs. rewrite (startswith_slash_snoc q n1 n2).
    destruct (startswith (q +:+ String sep n2) "/") eqn:Eq;
      [now apply normpath_snoc2 |].
    unfold join. cbn [fold_left]. unfold join2.
    rewrite (startswith_slash_snoc q n1 n2), Eq.
    destruct (String.eqb cwd "" || endswith cwd "/").
    + rewrite <- !append_assoc. now apply normpath_snoc2.
    + rewrite <- !(append_assoc "/"), <- !(append_assoc cwd). now apply normpath_snoc2.
Qed.

Lemma simple_no_trailing_slash (name : string) :
  simple_name name -> endswith name "/" = false.
Proof.
  intros (Hs & _). destruct (endswith name "/") eqn:E; [| reflexivity].
  destruct (endswith_split _ _ E) as [stem ->].
  rewrite has_char_append in Hs. apply orb_false_iff in Hs as [_ Hs]. discriminate Hs.
Qed.

End NormFacts.

(** ** config-build.py: the computed directories *)

Module DirectoryFacts.
Import PyStr PosixPath PyStrFacts PathFacts PathVocabulary NormFacts.
Import ConfigBuild LocatorFacts RunVocabulary RunFacts ResetFacts TraceFacts.
#[local] Arguments String.append !_ _ / : simpl nomatch.
Local Open Scope py_scope.
Local Open Scope list_scope.

Lemma compute_buildpath_default (a : args.t) (platform_info : string) (w : World) :
  args.buildpath a = "" ->
  compute_buildpath a platform_info w
  = (Ok (abspath (cwd w) (policy_name "build" a platform_info)), w).
Proof.
  intros Hb. unfold compute_buildpath, policy_name. rewrite Hb.
  destruct (String.eqb (args.hostconfig a) ""); reflexivity.
Qed.

Lemma compute_installpath_default (a : args.t) (platform_info : string) (w : World) :
  args.installpath a = "" ->
  compute_installpath a platform_info w
  = (Ok (abspath (cwd w) (policy_name "install" a platform_info)), w).
Proof.
  intros Hi. unfold compute_installpath, policy_name. rewrite Hi.
  destruct (String.eqb (args.hostconfig a) ""); reflexivity.
Qed.

Lemma compute_buildpath_override (a : args.t) (platform_info : string) (w : World) :
  args.buildpath a <> "" ->
  compute_buildpath a platform_info w = (Ok (abspath (cwd w) (args.buildpath a)), w).
Proof.
  intros Hb. unfold compute_buildpath.
  now rewrite (proj2 (String.eqb_neq (args.buildpath a) "") Hb).
Qed.

Lemma compute_installpath_override (a : args.t) (platform_info : string) (w : World) :
  args.installpath a <> "" ->
  compute_installpath a platform_info w
  = (Ok (abspath (cwd w) (abspath (cwd w) (args.installpath a))), w).
Proof.
  intros Hi. unfold compute_installpath.
  now rewrite (proj2 (String.eqb_neq (args.installpath a) "") Hi).
Qed.

(** X6. In an absolute working directory BuildPath and InstallPath are
    absolute paths in normal form, whatever the arguments: a further
    [os.path.abspath] leaves them as they are, so the tree is looked up
    and changed at exactly these paths.  With --buildpath or
    --installpath given they are the absolute path of the override; the
    second [abspath] applied to --installpath changes nothing. *)
Theorem X6_paths_absolute_and_normal (a : args.t) (platform_info : string) (w : World) :
  isabs (cwd w) = true ->
  exists buildpath installpath,
    compute_buildpath a platform_info w = (Ok buildpath, w)
    /\ compute_installpath a platform_info w = (Ok installpath, w)
    /\ isabs buildpath = true /\ isabs installpath = true
    /\ abspath (cwd w) buildpath = buildpath
    /\ abspath (cwd w) installpath = installpath
    /\ lookup_path w buildpath = fs w !! buildpath
    /\ lookup_path w installpath = fs w !! installpath
    /\ (args.buildpath a <> "" -> buildpath = abspath (cwd w) (args.buildpath a))
    /\ (args.installpath a <> "" -> installpath = abspath (cwd w) (args.installpath a)).
Proof.
  intros Hcwd.
  assert (exists x, compute_buildpath a platform_info w = (Ok (abspath (cwd w) x), w)
                    /\ (args.buildpath a <> "" -> x = args.buildpath a))
    as (x & Ex & Hx).
  { destruct (String.eqb_spec (args.buildpath a) "") as [E | E].
    - eexists. split; [now apply compute_buildpath_default | congruence].
    - eexists. split; [now apply compute_buildpath_override | reflexivity]. }
  assert (exists y, compute_installpath a platform_info w = (Ok (abspath (cwd w) y), w)
                    /\ (args.installpath a <> ""
                        -> abspath (cwd w) y = abspath (cwd w) (args.installpath a)))
    as (y & Ey & Hy).
  { destruct (String.eqb_spec (args.installpath a) "") as [E | E].
    - eexists. split; [now apply compute_installpath_default | congruence].
    - eexists. split; [now apply compute_installpath_override |].
      intros _. now apply abspath_idempotent. }
  destruct (abspath_idempotent (cwd w) x Hcwd) as [Hax Hix].
  destruct (abspath_idempotent (cwd w) y Hcwd) as [Hay Hiy].
  exists (abspath (cwd w) x), (abspath (cwd w) y).
  unfold lookup_path. rewrite Hix, Hiy.
  repeat split; try assumption.
  intros H. now rewrite (Hx H).
Qed.

Lemma X6_paths_absolute_and_normal_witness :
  exists buildpath installpath,
    compute_buildpath Sample.nested "foo" Sample.start = (Ok buildpath, Sample.start)
    /\ compute_installpath Sample.nested "foo" Sample.start = (Ok installpath, Sample.start)
    /\ isabs buildpath = true /\ isabs installpath = true
    /\ abspath (cwd Sample.start) buildpath = buildpath
    /\ abspath (cwd Sample.start) installpath = installpath
    /\ lookup_path Sample.start buildpath = fs Sample.start !! buildpath
    /\ lookup_path Sample.start installpath = fs Sample.start !! installpath
    /\ (args.buildpath Sample.nested <> ""
        -> buildpath = abspath (cwd Sample.start) (args.buildpath Sample.nested))
    /\ (args.installpath Sample.nested <> ""
        -> installpath = abspath (cwd Sample.start) (args.installpath Sample.nested)).
Proof. apply (X6_paths_absolute_and_normal Sample.nested "foo" Sample.start). reflexivity. Defined.

(** *** Directory names that are single components *)

Lemma rfind1_split (p : string) :
  exists q name, p = q +:+ name /\ rfind1 sep p = String.length q
                 /\ has_char sep name = false.
Proof.
  induction p as [|c p (q & name & -> & E & Hn)].
  - exists "", "". repeat split.
  - cbn [rfind1]. rewrite E. destruct q as [|x q].
    + cbn [String.length String.append]. destruct (Ascii.eqb c sep) eqn:Ec.
      * exists (String c ""), name. repeat split. assumption.
      * exists "", (String c name). repeat split. simpl. now rewrite Ec.
    + exists (String c (String x q)), name. repeat split. assumption.
Qed.

Lemma basename_no_sep (p : string) : has_char sep (basename p) = false.
Proof.
  destruct (rfind1_split p) as (q & name & -> & E & Hn).
  unfold basename, split. cbn [snd]. rewrite E, length_append.
  replace (String.length q + String.length name - String.length q)
    with (String.length name) by lia.
  now rewrite substring_skip_append.
Qed.

(** the PlatformInfo taken from a host-config holds no slash *)
Lemma hostconfig_platform_info (a : args.t) (p : Proc) (scriptsdir : string) (w w1 : World)
    (cachefile platform_info : string) :
  args.hostconfig a <> "" ->
  find_cmake_cache_file a p scriptsdir w = (Ok (cachefile, platform_info), w1) ->
  has_char sep platform_info = false.
Proof.
  intros Hhc. rewrite (locator_hostconfig a p scriptsdir w Hhc). intros [= _ <- _].
  pose proof (basename_no_sep (abspath (cwd w) (args.hostconfig a))) as Hb.
  destruct (endswith _ ".cmake") eqn:E; [| exact Hb].
  destruct (endswith_split _ _ E) as [stem Es]. rewrite Es in *.
  rewrite drop_last_cmake. rewrite has_char_append in Hb.
  now apply orb_false_iff in Hb as [Hb _].
Qed.

Lemma lower_buildtype_no_sep (b : BuildType) :
  has_char sep (lower (buildtype_str b)) = false.
Proof. destruct b; reflexivity. Qed.

Lemma policy_name_simple (prefix : string) (a : args.t) (platform_info : string) :
  prefix = "build" \/ prefix = "install" ->
  has_char sep platform_info = false ->
  (args.hostconfig a = "" -> has_char sep (args.compiler a) = false) ->
  simple_name (policy_name prefix a platform_info).
Proof.
  intros Hp Hpi Hc. unfold policy_name, simple_name.
  destruct (String.eqb_spec (args.hostconfig a) "") as [E | E].
  - rewrite !has_char_append, Hpi, (Hc E), lower_buildtype_no_sep.
    destruct Hp as [-> | ->]; repeat split; discriminate.
  - rewrite !has_char_append, Hpi, lower_buildtype_no_sep.
    destruct Hp as [-> | ->]; repeat split; discriminate.
Qed.

Lemma policy_names_differ (a : args.t) (platform_info : string) :
  policy_name "build" a platform_info <> policy_name "install" a platform_info.
Proof.
  unfold policy_name. destruct (String.eqb (args.hostconfig a) ""); discriminate.
Qed.

Lemma sibling_not_under (dir n1 n2 : string) :
  simple_name n1 -> simple_name n2 -> n1 <> n2 ->
  under (dir +:+ n1) (dir +:+ n2) = false.
Proof.
  intros H1 H2 Hne. unfold under. apply orb_false_iff. split.
  - apply String.eqb_neq. intros E. apply append_inv_head in E. congruence.
  - rewrite endswith_slash_append by apply H1.
    rewrite simple_no_trailing_slash by assumption.
    unfold startswith. destruct (String.prefix _ _) eqn:E; [| reflexivity].
    apply prefix_split in E as [rest E].
    rewrite !append_assoc in E. apply append_inv_head in E.
    destruct H2 as (Hs & _). rewrite E, !has_char_append in Hs.
    apply orb_false_iff in Hs as [_ Hs]. discriminate Hs.
Qed.

(** the paths the two resets work on, for names made by the policy *)
Lemma default_paths (a : args.t) (platform_info cwd : string) :
  has_char sep platform_info = false ->
  (args.hostconfig a = "" -> has_char sep (args.compiler a) = false) ->
  exists dir dir',
    dir_prefix dir /\ dir_prefix dir'
    /\ abspath cwd (policy_name "build" a platform_info)
       = dir +:+ policy_name "build" a platform_info
    /\ abspath cwd (policy_name "install" a platform_info)
       = dir +:+ policy_name "install" a platform_info
    /\ abspath cwd (abspath cwd (policy_name "build" a platform_info))
       = dir' +:+ policy_name "build" a platform_info
    /\ abspath cwd (abspath cwd (policy_name "install" a platform_info))
       = dir' +:+ policy_name "install" a platform_info.
Proof.
  intros Hpi Hc.
  pose proof (policy_name_simple "build" a platform_info (or_introl eq_refl) Hpi Hc) as Sb.
  pose proof (policy_name_simple "install" a platform_info (or_intror eq_refl) Hpi Hc) as Si.
  destruct (abspath_same_dir cwd "" _ _ (or_introl eq_refl) Sb Si) as (dir & Hd & Eb & Ei).
  change ("" +:+ policy_name "build" a platform_info)
    with (policy_name "build" a platform_info) in Eb.
  change ("" +:+ policy_name "install" a platform_info)
    with (policy_name "install" a platform_info) in Ei.
  destruct (abspath_same_dir cwd dir _ _ Hd Sb Si) as (dir' & Hd' & Eb' & Ei').
  exists dir, dir'. rewrite Eb, Ei. repeat split; assumption.
Qed.

(** X7. Without --buildpath and --installpath, and with a PlatformInfo
    and a compiler flag that hold no slash (a PlatformInfo taken from a
    host-config never does), BuildPath and InstallPath are two different
    entries of one and the same directory, and their last components
    are the names of the naming policy. *)
Theorem X7_default_directories_are_siblings (a : args.t) (p : Proc)
    (scriptsdir cachefile platform_info : string) (w w1 : World) :
  args.buildpath a = "" -> args.installpath a = "" ->
  find_cmake_cache_file a p scriptsdir w = (Ok (cachefile, platform_info), w1) ->
  (args.hostconfig a = "" ->
   has_char sep platform_info = false /\ has_char sep (args.compiler a) = false) ->
  exists dir,
    dir_prefix dir
    /\ compute_buildpath a platform_info w1
       = (Ok (dir +:+ policy_name "build" a platform_info), w1)
    /\ compute_installpath a platform_info w1
       = (Ok (dir +:+ policy_name "install" a platform_info), w1)
    /\ basename (dir +:+ policy_name "build" a platform_info)
       = policy_name "build" a platform_info
    /\ basename (dir +:+ policy_name "install" a platform_info)
       = policy_name "install" a platform_info
    /\ dir +:+ policy_name "build" a platform_info
       <> dir +:+ policy_name "install" a platform_info.
Proof.
  intros Hb Hi Hloc Hplain.
  assert (has_char sep platform_info = false) as Hpi.
  { destruct (String.eqb_spec (args.hostconfig a) "") as [E | E].
    - apply (Hplain E).
    - exact (hostconfig_platform_info a p scriptsdir w w1 cachefile platform_info E Hloc). }
  assert (args.hostconfig a = "" -> has_char sep (args.compiler a) = false) as Hc
    by (intros E; apply (Hplain E)).
  pose proof (policy_name_simple "build" a platform_info (or_introl eq_refl) Hpi Hc) as Sb.
  pose proof (policy_name_simple "install" a platform_info (or_intror eq_refl) Hpi Hc) as Si.
  destruct (default_paths a platform_info (cwd w1) Hpi Hc)
    as (dir & _ & Hd & _ & Eb & Ei & _).
  exists dir. rewrite compute_buildpath_default, compute_installpath_default by assumption.
  rewrite Eb, Ei. repeat split; try assumption.
  - apply basename_dir_prefix; [assumption | apply Sb].
  - apply basename_dir_prefix; [assumption | apply Si].
  - intros E. apply append_inv_head in E. now apply policy_names_differ in E.
Qed.

Lemma X7_default_directories_are_siblings_witness :
  exists dir,
    dir_prefix dir
    /\ compute_buildpath (Sample.with_hostconfig "configs/quartz-clang.cmake") "quartz-clang"
         (emit (Stdout "Using user specified host config file: '/work/axom/configs/quartz-clang.cmake'.")
            Sample.start)
       = (Ok (dir +:+ "build-quartz-clang-debug"),
          emit (Stdout "Using user specified host config file: '/work/axom/configs/quartz-clang.cmake'.")
            Sample.start)
    /\ compute_installpath (Sample.with_hostconfig "configs/quartz-clang.cmake") "quartz-clang"
         (emit (Stdout "Using user specified host config file: '/work/axom/configs/quartz-clang.cmake'.")
            Sample.start)
       = (Ok (dir +:+ "install-quartz-clang-debug"),
          emit (Stdout "Using user specified host config file: '/work/axom/configs/quartz-clang.cmake'.")
            Sample.start)
    /\ basename (dir +:+ "build-quartz-clang-debug") = "build-quartz-clang-debug"
    /\ basename (dir +:+ "install-quartz-clang-debug") = "install-quartz-clang-debug"
    /\ dir +:+ "build-quartz-clang-debug" <> dir +:+ "install-quartz-clang-debug".
Proof.
  apply (X7_default_directories_are_siblings
           (Sample.with_hostconfig "configs/quartz-clang.cmake") Sample.foo
           "/work/axom/scripts" "/work/axom/configs/quartz-clang.cmake" "quartz-clang"
           Sample.start).
  - reflexivity.
  - reflexivity.
  - vm_compute. reflexivity.
  - intros H. discriminate H.
Defined.

(** X8. With directory names made by the policy (no --buildpath, no
    --installpath, no slash in PlatformInfo or the compiler flag), the
    reset of the install directory leaves the build directory alone: once
    the steps before Run CMake have succeeded, BuildPath is an existing
    directory, the script enters it and starts the tool, and ends with
    status 0. *)
Theorem X8_default_run_reaches_the_tool (a : args.t) (p : Proc) (w w1 : World)
    (buildpath cmakeline : string) :
  args.buildpath a = "" -> args.installpath a = "" ->
  (args.hostconfig a = "" ->
   has_char sep (args.compiler a) = false
   /\ forall cachefile platform_info,
       fst (find_cmake_cache_file a p (dirname (abspath (cwd w) (argv0 p))) w)
       = Ok (cachefile, platform_info) ->
       has_char sep platform_info = false) ->
  configure a p w = (Ok (buildpath, cmakeline), w1) ->
  lookup_path w1 buildpath = Some Dir
  /\ exists w2 status,
      config_build a p w = (Ok tt, w2)
      /\ List.last (log w2) (Stdout "")
         = Call cmakeline (abspath (cwd w) buildpath) status
      /\ script_exit_status a p w = 0%Z.
Proof.
  intros Hb Hi Hplain Hconf.
  destruct (configure_inv a p w w1 buildpath cmakeline Hconf)
    as (cf & pi & ip & w0 & wB & Hloc & _ & _ & Hcwd & HB & HI & _).
  assert (has_char sep pi = false) as Hpi.
  { destruct (String.eqb_spec (args.hostconfig a) "") as [E | E].
    - apply (proj2 (Hplain E) cf pi Hloc).
    - destruct (find_cmake_cache_file a p (dirname (abspath (cwd w) (argv0 p))) w)
        as [r wl] eqn:El. cbn [fst] in Hloc. subst r.
      exact (hostconfig_platform_info a p _ w wl cf pi E El). }
  assert (args.hostconfig a = "" -> has_char sep (args.compiler a) = false) as Hc
    by (intros E; apply (Hplain E)).
  pose proof (policy_name_simple "build" a pi (or_introl eq_refl) Hpi Hc) as Sb.
  pose proof (policy_name_simple "install" a pi (or_intror eq_refl) Hpi Hc) as Si.
  destruct (setup_build_dir_ok _ _ _ _ _ HB) as (HdB & HcB & _).
  destruct (setup_install_dir_ok _ _ _ _ _ HI) as (_ & HcI & _).
  assert (buildpath = abspath (cwd w) (policy_name "build" a pi)) as Ebp.
  { revert HB. unfold setup_build_dir.
    rewrite (bind_ok _ _ _ _ _ (compute_buildpath_default a pi w0 Hb)).
    unfold bind. destruct (reset_buildpath _ w0) as [[[] | e] w']; [| discriminate].
    intros [= <- _]. now rewrite Hcwd. }
  assert (ip = abspath (cwd w) (policy_name "install" a pi)) as Eip.
  { revert HI. unfold setup_install_dir.
    rewrite (bind_ok _ _ _ _ _ (compute_installpath_default a pi wB Hi)).
    unfold bind. destruct (reset_installpath _ wB) as [[[] | e] w']; [| discriminate].
    intros [= <- _]. now rewrite HcB, Hcwd. }
  destruct (default_paths a pi (cwd w) Hpi Hc) as (_ & dir & _ & _ & _ & _ & Eb & Ei).
  assert (lookup_path w1 buildpath = Some Dir) as Hdir.
  { unfold lookup_path in *.
    replace (cwd w1) with (cwd w) by congruence.
    apply (setup_install_dir_keeps _ _ _ _ _ _ _ HI).
    - replace (cwd w) with (cwd wB) by congruence. exact HdB.
    - replace (cwd wB) with (cwd w) by congruence.
      rewrite Ebp, Eip, Eb, Ei.
      apply sibling_not_under; [assumption | assumption |].
      intros E. symmetry in E. now apply policy_names_differ in E. }
  split; [exact Hdir |].
  destruct (run_cmake_cases p buildpath cmakeline w1)
    as [(e & _ & Hno) | (w2 & before & status & R & _ & L & _)]; [contradiction |].
  assert (config_build a p w = (Ok tt, w2)) as Rw.
  { unfold config_build. rewrite (bind_ok _ _ _ _ _ Hconf). exact R. }
  exists w2, status. split; [exact Rw |]. split.
  - rewrite L, app_assoc, last_last. f_equal. congruence.
  - unfold script_exit_status. now rewrite Rw.
Qed.

Lemma X8_default_run_reaches_the_tool_witness :
  lookup_path (snd (configure args.defaults Sample.foo Sample.start))
    "/work/axom/build-foo-gnu-debug" = Some Dir
  /\ exists w2 status,
      config_build args.defaults Sample.foo Sample.start = (Ok tt, w2)
      /\ List.last (log w2) (Stdout "")
         = Call "cmake -C /work/axom/host-configs/other/foo.cmake -DCMAKE_BUILD_TYPE=Debug -DCMAKE_INSTALL_PREFIX=/work/axom/install-foo-gnu-debug /work/axom/scripts/../src "
             (abspath (cwd Sample.start) "/work/axom/build-foo-gnu-debug") status
      /\ script_exit_status args.defaults Sample.foo Sample.start = 0%Z.
Proof.
  apply (X8_default_run_reaches_the_tool args.defaults Sample.foo Sample.start).
  - reflexivity.
  - reflexivity.
  - intros _. split; [reflexivity |].
    intros cachefile platform_info H. vm_compute in H. injection H as _ <-. reflexivity.
  - vm_compute. reflexivity.
Defined.

End DirectoryFacts.

(** ** config-build.py: [os.path.exists] on a normalised path *)

Module ExistsFacts.
Import PyStr PosixPath PyStrFacts PathFacts PathVocabulary ConfigBuild NormFacts.
#[local] Arguments String.append !_ _ / : simpl nomatch.
Local Open Scope list_scope.

Lemma last_repeat (c : string) (n : nat) (d : string) :
  List.last (repeat c (S n)) d = c.
Proof.
  induction n as [|n IH]; [reflexivity |].
  change (repeat c (S (S n))) with (c :: repeat c (S n)).
  change (List.last (c :: repeat c (S n)) d) with (List.last (repeat c (S n)) d).
  exact IH.
Qed.

Lemma last_app_cons {A : Type} (l : list A) (x : A) (l' : list A) (d : A) :
  List.last (l ++ x :: l') d = List.last (x :: l') d.
Proof.
  induction l as [|y l IH]; [reflexivity |].
  change ((y :: l) ++ x :: l') with (y :: (l ++ x :: l')).
  destruct (l ++ x :: l') eqn:E; [destruct l; discriminate E |].
  exact IH.
Qed.

Lemma repeat_snoc {A : Type} (a : A) (n : nat) : repeat a n ++ [a] = repeat a (S n).
Proof. induction n as [|n IH]; [reflexivity |]. cbn [repeat app]. now rewrite IH. Qed.

(** the component loop of [normpath] builds some [..] and then plain
    names *)
Lemma norm_step_tidy (k : nat) (acc : list string) (comp : string) :
  has_char sep comp = false ->
  (exists n names, acc = repeat ".." n ++ names /\ Forall simple_name names) ->
  exists n names, norm_step k acc comp = repeat ".." n ++ names
                  /\ Forall simple_name names.
Proof.
  intros Hc (n & names & -> & Hn). unfold norm_step.
  destruct (String.eqb_spec comp ""); [now exists n, names |].
  destruct (String.eqb_spec comp "."); [now exists n, names |]. cbn [orb].
  destruct (String.eqb_spec comp "..") as [-> | Hdd]; cbn [negb orb].
  - destruct names as [|x names].
    + rewrite app_nil_r. destruct n as [|n].
      * cbn [repeat]. rewrite bool_decide_eq_true_2 by reflexivity.
        cbn [negb andb orb]. destruct (k =? 0)%nat; cbn [andb orb].
        -- exists 1, []. split; [reflexivity | constructor].
        -- exists 0, []. split; [reflexivity | constructor].
      * rewrite bool_decide_eq_false_2 by discriminate.
        rewrite andb_false_r. cbn [negb andb orb].
        rewrite last_repeat. cbn [String.eqb Ascii.eqb Bool.eqb andb].
        exists (S (S n)), []. rewrite app_nil_r. split; [apply repeat_snoc | constructor].
    + rewrite bool_decide_eq_false_2 by (destruct n; discriminate).
      rewrite andb_false_r. cbn [negb andb orb].
      rewrite last_app_cons.
      change (List.last (x :: names) "") with (List.last (x :: names) "").
      rewrite (simple_last (x :: names) Hn) by discriminate.
      exists n, (List.removelast (x :: names)). split.
      * apply removelast_app. discriminate.
      * now apply Forall_removelast.
  - exists n, (names ++ [comp]). split; [now rewrite app_assoc |].
    apply Forall_app. split; [assumption |].
    constructor; [| constructor]. repeat split; assumption.
Qed.

Lemma fold_norm_tidy (k : nat) (comps acc : list string) :
  Forall (fun c => has_char sep c = false) comps ->
  (exists n names, acc = repeat ".." n ++ names /\ Forall simple_name names) ->
  exists n names, fold_left (norm_step k) comps acc = repeat ".." n ++ names
                  /\ Forall simple_name names.
Proof.
  intros Hc. revert acc; induction Hc as [|c comps Hc _ IH]; intros acc Hacc;
    [assumption |].
  cbn [fold_left]. apply IH. now apply norm_step_tidy.
Qed.

Lemma split_join_slash_free (l : list string) :
  l <> [] -> Forall (fun c => has_char sep c = false) l ->
  PyStr.split sep (PyStr.join "/" l) = l.
Proof.
  intros Hne H. induction H as [|x l Hx Hl IH]; [congruence |].
  destruct l as [|y l].
  - cbn [PyStr.join]. now apply split_no_sep.
  - rewrite join_cons by discriminate.
    change ("/" +:+ PyStr.join "/" (y :: l)) with (String sep (PyStr.join "/" (y :: l))).
    rewrite split_app_sep by exact Hx. f_equal. now apply IH.
Qed.

Lemma dirs_needed_names (taken names : list string) :
  Forall (fun c => is_name c = true) names -> dirs_needed taken names = [].
Proof.
  intros H. revert taken; induction H as [|c names Hc Hn IH]; intros taken;
    [reflexivity |].
  cbn [dirs_needed]. rewrite IH. destruct Hn as [|n names Hn' _]; [reflexivity |].
  now rewrite Hn', andb_false_r.
Qed.

Lemma dirs_needed_sorted (pre names taken : list string) :
  Forall (fun c => is_name c = false) pre ->
  Forall (fun c => is_name c = true) names ->
  dirs_needed taken (pre ++ names) = [].
Proof.
  intros Hp Hn. revert taken; induction Hp as [|c pre Hc _ IH]; intros taken.
  - now apply dirs_needed_names.
  - change ((c :: pre) ++ names) with (c :: (pre ++ names)).
    cbn [dirs_needed]. rewrite IH, Hc. cbn [andb].
    now destruct (pre ++ names).
Qed.

Lemma simple_is_name (c : string) : simple_name c -> is_name c = true.
Proof.
  intros (_ & H0 & H1 & H2). unfold is_name.
  now rewrite (proj2 (String.eqb_neq c "") H0), (proj2 (String.eqb_neq c ".") H1),
    (proj2 (String.eqb_neq c "..") H2).
Qed.

(** the text [normpath] returns walks through no directory that it
    leaves again *)
Lemma normpath_dirs_needed (path : string) :
  dirs_needed [] (PyStr.split sep (normpath path)) = [].
Proof.
  destruct (String.eqb_spec path "") as [-> | Hne]; [reflexivity |].
  rewrite normpath_unfold by assumption.
  destruct (fold_norm_tidy (initial_slashes path) (PyStr.split sep path) []
              (split_components path))
    as (n & names & -> & Hn).
  { exists 0, []. split; [reflexivity | constructor]. }
  match goal with |- context [String.eqb ?r ""] =>
    destruct (String.eqb_spec r "") as [_ | _]; [reflexivity |] end.
  assert (Forall (fun c => is_name c = false) (repeat ".." n)) as Hdots.
  { clear. induction n; constructor; [reflexivity | assumption]. }
  assert (Forall (fun c => is_name c = true) names) as Hnames.
  { eapply List.Forall_impl; [| exact Hn]. apply simple_is_name. }
  assert (Forall (fun c => has_char sep c = false) (repeat ".." n ++ names)) as Hfree.
  { apply Forall_app. split.
    - clear. induction n; constructor; [reflexivity | assumption].
    - eapply List.Forall_impl; [| exact Hn]. intros c Hc. apply Hc. }
  destruct (repeat ".." n ++ names) as [|x l] eqn:El.
  - destruct (initial_slashes path) as [|[|k]]; reflexivity.
  - rewrite <- El in *.
    assert (repeat ".." n ++ names <> []) as Hl by (rewrite El; discriminate).
    clear El.
    destruct (initial_slashes path) as [|[|k]]; cbn [slashes String.append PyStr.split];
      change (Ascii.eqb "/" sep) with true; cbv iota;
      rewrite split_join_slash_free by assumption.
    + now apply dirs_needed_sorted.
    + apply (dirs_needed_sorted ("" :: repeat ".." n) names []); [| assumption].
      constructor; [reflexivity | assumption].
    + apply (dirs_needed_sorted ("" :: "" :: repeat ".." n) names []); [| assumption].
      constructor; [reflexivity |]. constructor; [reflexivity | assumption].
Qed.

(** for a path as [abspath] returns it, [os.path.exists] is the look at
    the tree *)
Lemma path_exists_abspath (w : World) (c x : string) :
  path_exists w (abspath c x) = bool_decide (is_Some (lookup_path w (abspath c x))).
Proof.
  unfold path_exists.
  replace (dirs_needed [] (PyStr.split sep (abspath c x))) with (@nil string)
    by (symmetry; apply normpath_dirs_needed).
  cbn [forallb]. apply andb_true_r.
Qed.

Lemma compute_buildpath_abspath (a : args.t) (platform_info path : string) (w w' : World) :
  compute_buildpath a platform_info w = (Ok path, w') ->
  exists x, path = abspath (cwd w) x.
Proof.
  unfold compute_buildpath.
  destruct (String.eqb (args.buildpath a) "") eqn:E,
    (String.eqb (args.hostconfig a) ""); cbn [negb]; rewrite ?E;
    unfold bind, ret, os_path_abspath; intros [= <- _]; eexists; reflexivity.
Qed.

Lemma compute_installpath_abspath (a : args.t) (platform_info path : string)
    (w w' : World) :
  compute_installpath a platform_info w = (Ok path, w') ->
  exists x, path = abspath (cwd w) x.
Proof.
  unfold compute_installpath.
  destruct (String.eqb (args.installpath a) ""),
    (String.eqb (args.hostconfig a) ""); cbn [negb];
    unfold bind, ret, os_path_abspath; intros [= <- _]; eexists; reflexivity.
Qed.

End ExistsFacts.

(** ** config-build.py: a path that is taken by a file *)

Module FileInTheWayFacts.
Import PyStr PosixPath ConfigBuild RunVocabulary RunFacts ExistsFacts.
Local Open Scope py_scope.
Local Open Scope list_scope.

(** X9. When BuildPath (or InstallPath) exists but is a regular file, the
    reset announces the deletion and then raises from [shutil.rmtree]:
    the tree and the working directory are unchanged, nothing is
    created, and the setup block ends there. *)
Theorem X9_path_taken_by_a_file (a : args.t) (platform_info path : string) (w : World) :
  lookup_path w path = Some File ->
  (compute_buildpath a platform_info w = (Ok path, w) ->
   setup_build_dir a platform_info w
   = (Raise (OSError ENOTDIR (abspath (cwd w) path)),
      emit (Stdout ("Build directory '" +:+ path +:+ "' already exists.  Deleting...")) w))
  /\ (compute_installpath a platform_info w = (Ok path, w) ->
      setup_install_dir a platform_info w
      = (Raise (OSError ENOTDIR (abspath (cwd w) path)),
         emit (Stdout ("Install directory '" +:+ path +:+ "' already exists, deleting...")) w)).
Proof.
  intros Hfile. split; intros Hc.
  - unfold setup_build_dir. rewrite (bind_ok _ _ _ _ _ Hc).
    apply bind_raise. unfold reset_buildpath.
    unfold bind at 1, os_path_exists.
    destruct (compute_buildpath_abspath _ _ _ _ _ Hc) as [x Ex].
    assert (path_exists w path = true) as ->.
    { rewrite Ex, path_exists_abspath, <- Ex, Hfile.
      apply bool_decide_eq_true_2. now eexists. }
    apply bind_raise. unfold bind, print, shutil_rmtree. cbn [emit fs cwd].
    unfold lookup_path in Hfile. now rewrite Hfile.
  - unfold setup_install_dir. rewrite (bind_ok _ _ _ _ _ Hc).
    apply bind_raise. unfold reset_installpath.
    unfold bind at 1, os_path_exists.
    destruct (compute_installpath_abspath _ _ _ _ _ Hc) as [x Ex].
    assert (path_exists w path = true) as ->.
    { rewrite Ex, path_exists_abspath, <- Ex, Hfile.
      apply bool_decide_eq_true_2. now eexists. }
    apply bind_raise. unfold bind, print, shutil_rmtree. cbn [emit fs cwd].
    unfold lookup_path in Hfile. now rewrite Hfile.
Qed.

Lemma X9_path_taken_by_a_file_witness :
  setup_build_dir (Sample.with_hostconfig "host-configs/other/foo.cmake") "foo" Sample.blocked
  = (Raise (OSError ENOTDIR "/work/axom/build-foo-debug"),
     emit (Stdout "Build directory '/work/axom/build-foo-debug' already exists.  Deleting...")
       Sample.blocked).
Proof.
  destruct (X9_path_taken_by_a_file (Sample.with_hostconfig "host-configs/other/foo.cmake")
              "foo" "/work/axom/build-foo-debug" Sample.blocked) as [H _].
  - vm_compute. reflexivity.
  - apply H. vm_compute. reflexivity.
Defined.

End FileInTheWayFacts.

(** ** build_src.py: validation, build and archive *)

Module BuildSrcMoreFacts.
Import PyStr PosixPath BuildSrc.
Local Open Scope list_scope.

(** X10. [main] skips the build exactly when a check fails: when
    UBERENV_PREFIX is set to something that is not a directory (also
    when a valid --directory is given, and although the value is not
    used otherwise), or when --directory is given and is not a
    directory.  It then returns 1 and has only printed the two error
    lines. *)
Theorem X10_build_skipped_iff_invalid (t : Tools) (h : Host) (opts : Opts) :
  (built_src_dir t h opts = None
   <-> (exists prefix, environ h !! "UBERENV_PREFIX" = Some prefix /\ isdir h prefix = false)
       \/ (directory opts <> "" /\ isdir h (directory opts) = false))
  /\ (built_src_dir t h opts = None ->
      fst (main t h opts) = 1%Z
      /\ exists line1 line2, snd (main t h opts) = [Stdout line1; Stdout line2]).
Proof.
  unfold built_src_dir, main.
  destruct (environ h !! "UBERENV_PREFIX") as [prefix |] eqn:Eenv.
  - destruct (isdir h prefix) eqn:Ep; cbn [negb].
    + destruct (String.eqb_spec (directory opts) "") as [Ed | Ed]; cbn [negb].
      * cbn [snd List.filter app]. split; [| discriminate].
        split; [discriminate |].
        intros [(x & [= <-] & Hx) | [Hd _]]; congruence.
      * destruct (isdir h (directory opts)) eqn:Ei; cbn [negb snd fst List.filter app].
        -- split; [| discriminate]. split; [discriminate |].
           intros [(x & [= <-] & Hx) | [_ Hd]]; congruence.
        -- split; [| intros _; split; [reflexivity | eexists _, _; reflexivity]].
           split; [intros _; now right | reflexivity].
    + cbn [snd fst List.filter].
      split; [| intros _; split; [reflexivity | eexists _, _; reflexivity]].
      split; [intros _; left; now exists prefix | reflexivity].
  - destruct (String.eqb_spec (directory opts) "") as [Ed | Ed]; cbn [negb].
    + cbn [snd List.filter app]. split; [| discriminate].
      split; [discriminate |].
      intros [(x & Hx & _) | [Hd _]]; congruence.
    + destruct (isdir h (directory opts)) eqn:Ei; cbn [negb snd fst List.filter app].
      * split; [| discriminate]. split; [discriminate |].
        intros [(x & Hx & _) | [_ Hd]]; congruence.
      * split; [| intros _; split; [reflexivity | eexists _, _; reflexivity]].
        split; [intros _; now right | reflexivity].
Qed.

(** X11. When the checks pass, [main] calls
    [build_and_test_host_configs] once and returns its result also when
    it archives.  The source directory is --directory as it was typed
    (not made absolute) or else the directory two levels above the
    script; the job name is the --archive name or else
    <user>/<script file name>; the logs are archived only with --archive,
    after the build, for the same source directory, job name and
    timestamp. *)
Theorem X11_build_and_archive (t : Tools) (h : Host) (opts : Opts) :
  (forall prefix, environ h !! "UBERENV_PREFIX" = Some prefix -> isdir h prefix = true) ->
  (directory opts <> "" -> isdir h (directory opts) = true) ->
  exists src_dir job_name,
    src_dir = (if String.eqb (directory opts) ""
               then abspath (getcwd h) (join (dirname (realpath_file h)) ["../.."])
               else directory opts)
    /\ job_name = (if String.eqb (archive opts) ""
                   then get_username t +:+ "/" +:+ basename (file__ h)
                   else archive opts)
    /\ fst (main t h opts)
       = build_and_test_host_configs t src_dir job_name (get_timestamp t)
    /\ snd (main t h opts)
       = BuildAndTest src_dir job_name (get_timestamp t)
           :: (if String.eqb (archive opts) "" then []
               else [ArchiveSrcLogs src_dir job_name (get_timestamp t)]).
Proof.
  intros Henv Hdir. unfold main.
  assert (match environ h !! "UBERENV_PREFIX" with
          | Some src_dir =>
              if negb (isdir h src_dir)
              then inl [Stdout "[ERROR: Given environment variable 'UBERENV_PREFIX' is not a valid directory]";
                        Stdout ("[    'UBERENV_PREFIX' = " +:+ src_dir +:+ "]")]
              else inr (Some src_dir)
          | None => inr None
          end = inr (environ h !! "UBERENV_PREFIX")) as ->.
  { destruct (environ h !! "UBERENV_PREFIX") as [prefix |] eqn:E; [| reflexivity].
    now rewrite (Henv prefix eq_refl). }
  destruct (String.eqb_spec (directory opts) "") as [Ed | Ed]; cbn [negb].
  - eexists _, _. split; [reflexivity |]. split; [reflexivity |].
    destruct (String.eqb (archive opts) ""); split; reflexivity.
  - rewrite (Hdir Ed). cbn [negb].
    eexists _, _. split; [reflexivity |]. split; [reflexivity |].
    destruct (String.eqb (archive opts) ""); split; reflexivity.
Qed.

Lemma X11_build_and_archive_witness :
  exists src_dir job_name,
    src_dir = "src/axom"
    /\ job_name = "nightly"
    /\ fst (main Sample.tools Sample.work_host Sample.archive_relative)
       = build_and_test_host_configs Sample.tools src_dir job_name
           (get_timestamp Sample.tools)
    /\ snd (main Sample.tools Sample.work_host Sample.archive_relative)
       = BuildAndTest src_dir job_name (get_timestamp Sample.tools)
           :: [ArchiveSrcLogs src_dir job_name (get_timestamp Sample.tools)].
Proof.
  apply (X11_build_and_archive Sample.tools Sample.work_host Sample.archive_relative).
  - intros prefix H. vm_compute in H. discriminate H.
  - intros _. reflexivity.
Defined.

End BuildSrcMoreFacts.
